(** * zdb: tools/dump_offsets.py

    A shallow embedding of the offset dumper and the properties of its
    specification.

    Python [str] values are modelled as [string], a character being a code
    point below 256.  Python [int] is unbounded and is modelled as [Z].  The
    [symbols] dictionary built from the output of [nm] is a [gmap string Z];
    the ["symbols"] dictionary of the report, whose insertion order is
    visible in the JSON text, is an association list with the assignment
    semantics of a Python [dict].

    The script talks to its surroundings through [subprocess.run],
    [os.path.exists], [print] and [sys.exit].  A [World] gives the outcome
    of every command and the paths that exist; the two output streams are
    threaded through a small monad whose results are a value, an exit code
    or an uncaught exception.  The library functions the script calls
    ([str.split], [str.splitlines], [int], [hex], [os.path.dirname],
    [os.path.join], [re.search] with the two patterns of the script,
    [json.dumps]) are modelled after CPython.

    A call of [subprocess.run] can also raise instead of returning.  The
    definitions over a [World] are the script in the runs in which every
    call returns; [Host] adds the calls that raise, and the module [Full]
    is the script on a host.  The two agree on every host on which the
    calls return ([full_run_for_returns]). *)

From Stdlib Require Import ZArith Ascii String List Lia.
From stdpp Require Import base option list gmap strings fin_maps.

Local Open Scope string_scope.
Local Open Scope Z_scope.

(** ** Python built-ins on characters and strings *)

Module Py.

(** [str.isspace] on one character, restricted to code points below 256:
    TAB..CR, FS..US, SPACE, NEL and NBSP. *)
Definition isspace (c : ascii) : bool :=
  let n := N_of_ascii c in
  ((9 <=? n) && (n <=? 13) || (28 <=? n) && (n <=? 31) || (n =? 32)
   || (n =? 133) || (n =? 160))%N.

(** Line boundaries of [str.splitlines], code points below 256:
    LF, VT, FF, CR, FS, GS, RS and NEL. *)
Definition islinebreak (c : ascii) : bool :=
  let n := N_of_ascii c in
  ((10 <=? n) && (n <=? 13) || (28 <=? n) && (n <=? 30) || (n =? 133))%N.

Definition is_cr (c : ascii) : bool := (N_of_ascii c =? 13)%N.
Definition is_lf (c : ascii) : bool := (N_of_ascii c =? 10)%N.
Definition is_underscore (c : ascii) : bool := (N_of_ascii c =? 95)%N.

(** [flush cur toks]: the token being read, if any, joins the tokens. *)
Definition flush (cur : string) (toks : list string) : list string :=
  match cur with
  | EmptyString => toks
  | _ => cur :: toks
  end.

(** One scan of [str.split()]: the token that starts the text (empty when
    the text starts with white space) and the tokens after it. *)
Fixpoint split_go (s : string) : string * list string :=
  match s with
  | EmptyString => (EmptyString, [])
  | String c s' =>
      let '(cur, toks) := split_go s' in
      if isspace c then (EmptyString, flush cur toks)
      else (String c cur, toks)
  end.

(** [s.split()]: the maximal runs of characters that are not white space. *)
Definition split (s : string) : list string :=
  let '(cur, toks) := split_go s in flush cur toks.

(** [s.splitlines()]: CR LF counts as one boundary, and a final line
    boundary opens no empty last line. *)
Fixpoint splitlines (s : string) : list string :=
  match s with
  | EmptyString => []
  | String c s' =>
      if islinebreak c then
        match s' with
        | String c' s'' =>
            if is_cr c && is_lf c' then EmptyString :: splitlines s''
            else EmptyString :: splitlines s'
        | EmptyString => [EmptyString]
        end
      else
        match splitlines s' with
        | [] => [String c EmptyString]
        | l :: ls => String c l :: ls
        end
  end.

(** [s.startswith("_")] *)
Definition startswith_underscore (s : string) : bool :=
  match s with
  | String c _ => is_underscore c
  | EmptyString => false
  end.

(** [s[1:]] *)
Definition tail (s : string) : string :=
  match s with
  | String _ s' => s'
  | EmptyString => EmptyString
  end.

(** The value of a character as a digit of base 16, as [int] reads it:
    both cases of the letters are digits. *)
Definition digit16 (c : ascii) : option Z :=
  let n := Z.of_N (N_of_ascii c) in
  if (48 <=? n) && (n <=? 57) then Some (n - 48)
  else if (97 <=? n) && (n <=? 102) then Some (n - 87)
  else if (65 <=? n) && (n <=? 70) then Some (n - 55)
  else None.

(** The white space that [int] skips around a numeral: TAB..CR and SPACE,
    and NEL and NBSP, which [int] turns into spaces first.  FS..US are
    white space for [str.split] but not for [int]. *)
Definition int_isspace (c : ascii) : bool :=
  let n := N_of_ascii c in
  ((9 <=? n) && (n <=? 13) || (n =? 32) || (n =? 133) || (n =? 160))%N.

Fixpoint lstrip (s : string) : string :=
  match s with
  | String c s' => if int_isspace c then lstrip s' else s
  | EmptyString => EmptyString
  end.

Fixpoint all_space (s : string) : bool :=
  match s with
  | String c s' => int_isspace c && all_space s'
  | EmptyString => true
  end.

Fixpoint has_space (s : string) : bool :=
  match s with
  | String c s' => isspace c || has_space s'
  | EmptyString => false
  end.

(** The digit loop of [int(s, 16)]: digits and single underscores between
    them.  [prev] is the character read last, [acc] the value so far; the
    result is the value and the text left.  Two underscores in a row and
    an underscore at the end are errors. *)
Fixpoint scan_digits (s : string) (prev : ascii) (acc : Z) : option (Z * string) :=
  let stop := if is_underscore prev then None else Some (acc, s) in
  match s with
  | String c s' =>
      if is_underscore c then
        if is_underscore prev then None else scan_digits s' c acc
      else
        match digit16 c with
        | Some d => scan_digits s' c (acc * 16 + d)
        | None => stop
        end
  | EmptyString => stop
  end.

(** An optional sign. *)
Definition take_sign (s : string) : Z * string :=
  match s with
  | String "+" s' => (1, s')
  | String "-" s' => (-1, s')
  | _ => (1, s)
  end.

(** An optional [0x] or [0X], which one underscore may follow. *)
Definition take_prefix (s : string) : string :=
  match s with
  | String "0" (String x s') =>
      if (x =? "x")%char || (x =? "X")%char then
        match s' with
        | String "_" s'' => s''
        | _ => s'
        end
      else s
  | _ => s
  end.

(** [int(s, 16)]; [None] stands for [ValueError].  White space around the
    numeral is skipped, then come an optional sign, an optional [0x], at
    least one digit, and nothing else.  The script hands tokens of
    [str.split] to [int], which hold no white space at all. *)
Definition int16 (s : string) : option Z :=
  let '(sign, s1) := take_sign (lstrip s) in
  let s2 := take_prefix s1 in
  match s2 with
  | EmptyString => None
  | String c _ =>
      if is_underscore c then None
      else
        match digit16 c with
        | None => None
        | Some _ =>
            match scan_digits s2 "000" 0 with
            | Some (v, rest) => if all_space rest then Some (sign * v) else None
            | None => None
            end
        end
  end.

(** The digit of [hex] for a value below 16. *)
Definition hex_char (d : Z) : ascii :=
  if d <? 10 then ascii_of_N (Z.to_N (48 + d)) else ascii_of_N (Z.to_N (87 + d)).

(** The digits of [n], most significant first, in front of [acc]. *)
Fixpoint hex_digits (fuel : nat) (n : Z) (acc : string) : string :=
  match fuel with
  | O => acc
  | S fuel' =>
      let acc' := String (hex_char (n mod 16)) acc in
      if n / 16 =? 0 then acc' else hex_digits fuel' (n / 16) acc'
  end.

(** [hex(n)]: a minus sign for a negative number, [0x], the digits of the
    absolute value in lower case. *)
Definition hex (n : Z) : string :=
  (if n <? 0 then "-" else "") ++ "0x"
  ++ hex_digits (S (Z.to_nat (Z.log2 (Z.abs n)))) (Z.abs n) "".

End Py.

(** [os.path] as [posixpath] defines it. *)

Module OsPath.

Definition is_slash (c : ascii) : bool := (N_of_ascii c =? 47)%N.

Fixpoint has_slash (s : string) : bool :=
  match s with
  | String c s' => is_slash c || has_slash s'
  | EmptyString => false
  end.

Fixpoint all_slash (s : string) : bool :=
  match s with
  | String c s' => is_slash c && all_slash s'
  | EmptyString => true
  end.

(** [p[:p.rfind("/") + 1]] *)
Fixpoint upto_last_slash (p : string) : string :=
  match p with
  | String c p' =>
      if has_slash p' then String c (upto_last_slash p')
      else if is_slash c then String c EmptyString
      else EmptyString
  | EmptyString => EmptyString
  end.

(** [s.rstrip("/")] *)
Fixpoint rstrip_slash (s : string) : string :=
  match s with
  | String c s' =>
      match rstrip_slash s' with
      | EmptyString => if is_slash c then EmptyString else String c EmptyString
      | r => String c r
      end
  | EmptyString => EmptyString
  end.

Definition dirname (p : string) : string :=
  let head := upto_last_slash p in
  match head with
  | EmptyString => head
  | _ => if all_slash head then head else rstrip_slash head
  end.

(** [p[p.rfind("/") + 1:]] *)
Fixpoint basename (p : string) : string :=
  match p with
  | String c p' => if has_slash p then basename p' else p
  | EmptyString => EmptyString
  end.

Fixpoint endswith_slash (s : string) : bool :=
  match s with
  | String c EmptyString => is_slash c
  | String _ s' => endswith_slash s'
  | EmptyString => false
  end.

Definition startswith_slash (s : string) : bool :=
  match s with
  | String c _ => is_slash c
  | EmptyString => false
  end.

(** One round of the loop of [join]. *)
Definition join_step (path b : string) : string :=
  if startswith_slash b then b
  else
    match path with
    | EmptyString => b
    | _ => if endswith_slash path then path ++ b else path ++ "/" ++ b
    end.

Definition join (a : string) (ps : list string) : string :=
  fold_left join_step ps a.

End OsPath.

(** The two patterns the script hands to [re.search].  In both, a run of
    digits is followed by a character that is no digit (or by the end of
    the pattern), so the greedy [\d+] can only match a maximal run and the
    search needs no backtracking. *)

Module Re.

Definition isdigit (c : ascii) : bool :=
  let n := N_of_ascii c in ((48 <=? n) && (n <=? 57))%N.

(** The longest prefix of digits, and the text after it. *)
Fixpoint digits_run (s : string) : string * string :=
  match s with
  | String c s' =>
      if isdigit c then let '(d, r) := digits_run s' in (String c d, r)
      else (EmptyString, s)
  | EmptyString => (EmptyString, EmptyString)
  end.

(** [\d+] *)
Definition digits1 (s : string) : option (string * string) :=
  match digits_run s with
  | (EmptyString, _) => None
  | (d, r) => Some (d, r)
  end.

(** A literal text at the start of [s]; the result is the text after it. *)
Fixpoint literal (lit s : string) : option string :=
  match lit, s with
  | EmptyString, _ => Some s
  | String a lit', String b s' => if (a =? b)%char then literal lit' s' else None
  | String _ _, EmptyString => None
  end.

(** [(\d+\.\d+\.\d+)]: the text of the group and the text after it. *)
Definition triple (s : string) : option (string * string) :=
  match digits1 s with
  | None => None
  | Some (a, r1) =>
      match literal "." r1 with
      | None => None
      | Some r2 =>
          match digits1 r2 with
          | None => None
          | Some (b, r3) =>
              match literal "." r3 with
              | None => None
              | Some r4 =>
                  match digits1 r4 with
                  | None => None
                  | Some (c, r5) => Some (a ++ "." ++ b ++ "." ++ c, r5)
                  end
              end
          end
      end
  end.

(** [version (\d+\.\d+\.\d+)] at the start of [s]: group 1. *)
Definition version_at (s : string) : option string :=
  match literal "version " s with
  | None => None
  | Some r => match triple r with Some (v, _) => Some v | None => None end
  end.

(** [liblldb\.(\d+\.\d+\.\d+)\.dylib] at the start of [s]: group 1. *)
Definition libname_at (s : string) : option string :=
  match literal "liblldb." s with
  | None => None
  | Some r =>
      match triple r with
      | None => None
      | Some (v, r') =>
          match literal ".dylib" r' with Some _ => Some v | None => None end
      end
  end.

(** [re.search]: the match that starts leftmost. *)
Fixpoint search (at_start : string -> option string) (s : string) : option string :=
  match at_start s with
  | Some v => Some v
  | None =>
      match s with
      | String _ s' => search at_start s'
      | EmptyString => None
      end
  end.

End Re.

(** [json.dumps(obj, indent=2)] for the values the report is made of. *)

Module Json.

#[warnings="-register-all"]
Inductive value : Type :=
  | Null : value
  | Str : string -> value
  | Object : list (string * value) -> value.

(** [\u00XX] *)
Definition u_escape (c : ascii) : string :=
  let n := Z.of_N (N_of_ascii c) in
  "\u00" ++ String (Py.hex_char (n / 16)) (String (Py.hex_char (n mod 16)) "").

(** [ensure_ascii] is on: everything outside SPACE..~ is escaped. *)
Definition escape_char (c : ascii) : string :=
  let n := N_of_ascii c in
  if (n =? 34)%N then "\" ++ String c ""
  else if (n =? 92)%N then "\\"
  else if (n =? 10)%N then "\n"
  else if (n =? 13)%N then "\r"
  else if (n =? 9)%N then "\t"
  else if (n =? 12)%N then "\f"
  else if (n =? 8)%N then "\b"
  else if ((32 <=? n) && (n <=? 126))%N then String c ""
  else u_escape c.

Fixpoint escape (s : string) : string :=
  match s with
  | String c s' => escape_char c ++ escape s'
  | EmptyString => EmptyString
  end.

Definition quote (s : string) : string :=
  String "034" (escape s) ++ String "034" "".

Fixpoint spaces (n : nat) : string :=
  match n with
  | O => EmptyString
  | S n' => String " " (spaces n')
  end.

Definition newline_indent (level : nat) : string :=
  String "010" (spaces (2 * level)).

Fixpoint join (sep : string) (l : list string) : string :=
  match l with
  | [] => EmptyString
  | [x] => x
  | x :: l' => x ++ sep ++ join sep l'
  end.

Fixpoint dumps_at (level : nat) (v : value) : string :=
  match v with
  | Null => "null"
  | Str s => quote s
  | Object [] => "{}"
  | Object items =>
      "{" ++ newline_indent (S level)
      ++ join ("," ++ newline_indent (S level))
           (map (fun kv => quote (fst kv) ++ ": " ++ dumps_at (S level) (snd kv)) items)
      ++ newline_indent level ++ "}"
  end.

Definition dumps (v : value) : string := dumps_at 0 v.

End Json.

(** ** The process: streams, [sys.exit] and exceptions *)

(** What [subprocess.run(..., capture_output=True, text=True)] returns. *)
Record CompletedProcess : Type := {
  returncode : Z;
  stdout : string;
  stderr : string
}.

(** The surroundings of a run in which every call of [subprocess.run]
    returns: the outcome of each command the script spawns, and which paths
    exist.  The calls that raise instead are added by [Host] below. *)
Record World : Type := {
  subprocess_run : list string -> CompletedProcess;
  path_exists : string -> bool
}.

Inductive exn : Type :=
  | ValueError : exn
  | IndexError : exn
  | OSError : exn
  | UnicodeDecodeError : exn.

(** How a piece of the script ends: with a value, in [sys.exit(code)], or
    in an exception nobody catches. *)
Inductive result (A : Type) : Type :=
  | Returned : A -> result A
  | Exited : Z -> result A
  | Raised : exn -> result A.

Arguments Returned {A} _.
Arguments Exited {A} _.
Arguments Raised {A} _.

(** What the script has printed so far. *)
Record streams : Type := {
  sys_stdout : string;
  sys_stderr : string
}.

Definition M (A : Type) : Type := streams -> result A * streams.

Definition ret {A} (a : A) : M A := fun st => (Returned a, st).

Definition bind {A B} (m : M A) (k : A -> M B) : M B :=
  fun st =>
    match m st with
    | (Returned a, st') => k a st'
    | (Exited c, st') => (Exited c, st')
    | (Raised e, st') => (Raised e, st')
    end.

Notation "x <- m ;; k" := (bind m (fun x => k))
  (at level 100, m at next level, k at level 200, right associativity).
Notation "m ;; k" := (bind m (fun _ => k))
  (at level 100, k at level 200, right associativity).

(** [sys.exit(code)] *)
Definition sys_exit {A} (code : Z) : M A := fun st => (Exited code, st).

Definition raise {A} (e : exn) : M A := fun st => (Raised e, st).

Definition lift {A} (r : result A) : M A := fun st => (r, st).

Definition newline : string := String "010" EmptyString.

(** [print(s, file=sys.stderr)] *)
Definition print_stderr (s : string) : M unit :=
  fun st => (Returned tt,
             {| sys_stdout := sys_stdout st;
                sys_stderr := sys_stderr st ++ s ++ newline |}).

(** [print(s)] *)
Definition print (s : string) : M unit :=
  fun st => (Returned tt,
             {| sys_stdout := sys_stdout st ++ s ++ newline;
                sys_stderr := sys_stderr st |}).

(** A [for] loop that updates one variable. *)
Fixpoint for_each {A S} (l : list A) (body : S -> A -> M S) (s : S) : M S :=
  match l with
  | [] => ret s
  | x :: l' => s' <- body s x ;; for_each l' body s'
  end.

(** [d[k] = v] on a dictionary kept in insertion order: a key that is
    there keeps its place. *)
Fixpoint dict_set {V} (d : list (string * V)) (k : string) (v : V) : list (string * V) :=
  match d with
  | [] => [(k, v)]
  | (k', v') :: d' =>
      if String.eqb k' k then (k', v) :: d' else (k', v') :: dict_set d' k v
  end.

(** [d[k]], where [None] is a key that is not there. *)
Fixpoint dict_get {V} (d : list (string * V)) (k : string) : option V :=
  match d with
  | [] => None
  | (k', v') :: d' => if String.eqb k' k then Some v' else dict_get d' k
  end.

(** ** The script *)

Definition REFERENCE_SYMBOL : string := "_ZN4lldb10SBDebugger10InitializeEv".

Definition INTERNAL_SYMBOLS : list (string * string) := [
  ("_ZN12lldb_private17DataVisualization10Categories11GetCategoryENS_11ConstStringERNSt3__110shared_ptrINS_16TypeCategoryImplEEEb", "DataVisualization::Categories::GetCategory");
  ("_ZN12lldb_private17DataVisualization10Categories6EnableERKNSt3__110shared_ptrINS_16TypeCategoryImplEEEj", "DataVisualization::Categories::Enable");
  ("_ZN12lldb_private16TypeCategoryImpl14AddTypeSummaryEN4llvm9StringRefEN4lldb18FormatterMatchTypeENSt3__110shared_ptrINS_15TypeSummaryImplEEE", "TypeCategoryImpl::AddTypeSummary");
  ("_ZN12lldb_private16TypeCategoryImpl16AddTypeSyntheticEN4llvm9StringRefEN4lldb18FormatterMatchTypeENSt3__110shared_ptrINS_17SyntheticChildrenEEE", "TypeCategoryImpl::AddTypeSynthetic");
  ("_ZN12lldb_private16TypeCategoryImpl13AddTypeFormatEN4llvm9StringRefEN4lldb18FormatterMatchTypeENSt3__110shared_ptrINS_14TypeFormatImplEEE", "TypeCategoryImpl::AddTypeFormat");
  ("_ZN12lldb_private16TypeCategoryImpl13AddTypeFilterEN4llvm9StringRefEN4lldb18FormatterMatchTypeENSt3__110shared_ptrINS_14TypeFilterImplEEE", "TypeCategoryImpl::AddTypeFilter");
  ("_ZN12lldb_private24CXXFunctionSummaryFormatC2ERKNS_15TypeSummaryImpl5FlagsENSt3__18functionIFbRNS_11ValueObjectERNS_6StreamERKNS_18TypeSummaryOptionsEEEEPKcj", "CXXFunctionSummaryFormat::ctor");
  ("_ZN12lldb_private13FormatManager11GetCategoryENS_11ConstStringEb", "FormatManager::GetCategory");
  ("_ZN12lldb_private10formatters15AddCXXSyntheticENSt3__110shared_ptrINS_16TypeCategoryImplEEENS1_8functionIFPNS_25SyntheticChildrenFrontEndEPNS_20CXXSyntheticChildrenENS2_INS_11ValueObjectEEEEEEPKcN4llvm9StringRefENS_17SyntheticChildren5FlagsEb", "formatters::AddCXXSynthetic")
].

(** [get_lldb_version]: the version that [lldb --version] prints when
    [../bin/lldb] exists beside the library, else the one in the name of the
    library, else ["unknown"]. *)
Definition get_lldb_version (w : World) (liblldb_path : string) : string :=
  let lldb_dir := OsPath.dirname liblldb_path in
  let lldb_bin := OsPath.join lldb_dir [".."; "bin"; "lldb"] in
  let from_lldb :=
    if path_exists w lldb_bin then
      let result := subprocess_run w [lldb_bin; "--version"] in
      Re.search Re.version_at (stdout result)
    else None in
  match from_lldb with
  | Some v => v
  | None =>
      match Re.search Re.libname_at liblldb_path with
      | Some v => v
      | None => "unknown"
      end
  end.

(** The two lines under [# Remove leading underscore on macOS]. *)
Definition strip_underscore (name : string) : string :=
  if Py.startswith_underscore name then Py.tail name else name.

(** The body of the loop over the lines of the output of [nm]. *)
Definition parse_line (symbols : gmap string Z) (line : string) : result (gmap string Z) :=
  let parts := Py.split line in
  if (3 <=? length parts)%nat then
    let addr := nth 0 parts "" in
    let typ := nth 1 parts "" in
    let name := nth 2 parts "" in
    let name := strip_underscore name in
    match Py.int16 addr with
    | Some a => Returned (<[name := a]> symbols)
    | None => Raised ValueError
    end
  else Returned symbols.

(** The loop over the lines, from the table [symbols] on. *)
Fixpoint parse_lines (lines : list string) (symbols : gmap string Z) : result (gmap string Z) :=
  match lines with
  | [] => Returned symbols
  | line :: lines' =>
      match parse_line symbols line with
      | Returned symbols' => parse_lines lines' symbols'
      | Exited c => Exited c
      | Raised e => Raised e
      end
  end.

(** The symbol table of a text printed by [nm]. *)
Definition parse_nm_output (text : string) : result (gmap string Z) :=
  parse_lines (Py.splitlines text) ∅.

(** One entry of the ["symbols"] dictionary of the report. *)
Record entry : Type := {
  mangled : string;
  offset : string;
  relative : string
}.

(** The dictionary [offsets]. *)
Record offsets : Type := {
  version : string;
  reference_symbol : string;
  reference_offset : string;
  symbols : list (string * option entry)
}.

(** The body of the loop over the targets. *)
Definition resolve_target (table : gmap string Z) (ref_offset : Z)
    (syms : list (string * option entry)) (target : string * string)
    : M (list (string * option entry)) :=
  let '(mangled_name, demangled) := target in
  match table !! mangled_name with
  | Some a =>
      ret (dict_set syms demangled
             (Some {| mangled := mangled_name;
                      offset := Py.hex a;
                      relative := Py.hex (a - ref_offset) |}))
  | None =>
      print_stderr ("Warning: " ++ demangled ++ " not found") ;;
      ret (dict_set syms demangled None)
  end.

(** [dump_offsets], for a list of targets. *)
Definition dump_offsets_for (targets : list (string * string))
    (w : World) (liblldb_path : string) : M offsets :=
  let result := subprocess_run w ["nm"; liblldb_path] in
  (if returncode result =? 0 then ret tt
   else (print_stderr ("nm failed: " ++ stderr result) ;; sys_exit 1)) ;;
  table <- lift (parse_nm_output (stdout result)) ;;
  match table !! REFERENCE_SYMBOL with
  | None =>
      print_stderr ("Reference symbol " ++ REFERENCE_SYMBOL ++ " not found!") ;;
      sys_exit 1
  | Some ref_offset =>
      let ver := get_lldb_version w liblldb_path in
      syms <- for_each targets (resolve_target table ref_offset) [] ;;
      ret {| version := ver;
             reference_symbol := REFERENCE_SYMBOL;
             reference_offset := Py.hex ref_offset;
             symbols := syms |}
  end.

(** [dump_offsets] *)
Definition dump_offsets : World -> string -> M offsets :=
  dump_offsets_for INTERNAL_SYMBOLS.

Definition entry_json (e : option entry) : Json.value :=
  match e with
  | None => Json.Null
  | Some e =>
      Json.Object [("mangled", Json.Str (mangled e));
                   ("offset", Json.Str (offset e));
                   ("relative", Json.Str (relative e))]
  end.

(** The dictionary [offsets] as [json.dumps] sees it. *)
Definition offsets_json (o : offsets) : Json.value :=
  Json.Object [("version", Json.Str (version o));
               ("reference_symbol", Json.Str (reference_symbol o));
               ("reference_offset", Json.Str (reference_offset o));
               ("symbols",
                Json.Object (map (fun kv => (fst kv, entry_json (snd kv))) (symbols o)))].

(** [main], for a list of targets; [argv] is [sys.argv]. *)
Definition main_for (targets : list (string * string)) (w : World) (argv : list string) : M unit :=
  (if (length argv <? 2)%nat then
     match argv with
     | [] => raise IndexError
     | prog :: _ =>
         print_stderr ("Usage: " ++ prog ++ " /path/to/liblldb.dylib") ;; sys_exit 1
     end
   else ret tt) ;;
  let liblldb_path := nth 1 argv "" in
  o <- dump_offsets_for targets w liblldb_path ;;
  print (Json.dumps (offsets_json o)).

Definition main : World -> list string -> M unit := main_for INTERNAL_SYMBOLS.

(** What the shell sees of one run of the script. *)
Record process : Type := {
  exit_status : Z;
  out : string;
  err : string;
  uncaught : option exn
}.

(** A run of the script.  An exception that reaches the top ends the
    process with status 1; the interpreter then writes a traceback to the
    error stream, which [err] leaves out. *)
Definition run_for (targets : list (string * string)) (w : World) (argv : list string) : process :=
  let '(r, st) := main_for targets w argv {| sys_stdout := ""; sys_stderr := "" |} in
  {| exit_status := match r with Returned _ => 0 | Exited c => c | Raised _ => 1 end;
     out := sys_stdout st;
     err := sys_stderr st;
     uncaught := match r with Raised e => Some e | _ => None end |}.

Definition run : World -> list string -> process := run_for INTERNAL_SYMBOLS.

(** ** The script on a host where [subprocess.run] can raise *)

(** [subprocess.run] raises instead of returning when the command cannot
    be started ([OSError]: no such file, no permission to execute) or when
    what it printed does not decode as text ([UnicodeDecodeError]).  A host
    is a world together with the calls that raise. *)
Record Host : Type := {
  host_world : World;
  spawn_raises : list string -> option exn
}.

(** [subprocess.run(cmd, capture_output=True, text=True)] *)
Definition subprocess_run_in (h : Host) (cmd : list string) : M CompletedProcess :=
  match spawn_raises h cmd with
  | Some e => raise e
  | None => ret (subprocess_run (host_world h) cmd)
  end.

(** The three functions of the script once more, every call of
    [subprocess.run] now being one that can raise.  Nothing in the script
    catches an exception. *)
Module Full.

Definition get_lldb_version (h : Host) (liblldb_path : string) : M string :=
  let lldb_dir := OsPath.dirname liblldb_path in
  let lldb_bin := OsPath.join lldb_dir [".."; "bin"; "lldb"] in
  from_lldb <-
    (if path_exists (host_world h) lldb_bin then
       (result <- subprocess_run_in h [lldb_bin; "--version"] ;;
        ret (Re.search Re.version_at (stdout result)))
     else ret None) ;;
  match from_lldb with
  | Some v => ret v
  | None =>
      match Re.search Re.libname_at liblldb_path with
      | Some v => ret v
      | None => ret "unknown"
      end
  end.

Definition dump_offsets_for (targets : list (string * string))
    (h : Host) (liblldb_path : string) : M offsets :=
  result <- subprocess_run_in h ["nm"; liblldb_path] ;;
  (if returncode result =? 0 then ret tt
   else (print_stderr ("nm failed: " ++ stderr result) ;; sys_exit 1)) ;;
  table <- lift (parse_nm_output (stdout result)) ;;
  match table !! REFERENCE_SYMBOL with
  | None =>
      print_stderr ("Reference symbol " ++ REFERENCE_SYMBOL ++ " not found!") ;;
      sys_exit 1
  | Some ref_offset =>
      ver <- get_lldb_version h liblldb_path ;;
      syms <- for_each targets (resolve_target table ref_offset) [] ;;
      ret {| version := ver;
             reference_symbol := REFERENCE_SYMBOL;
             reference_offset := Py.hex ref_offset;
             symbols := syms |}
  end.

Definition dump_offsets : Host -> string -> M offsets :=
  dump_offsets_for INTERNAL_SYMBOLS.

Definition main_for (targets : list (string * string)) (h : Host) (argv : list string) : M unit :=
  (if (length argv <? 2)%nat then
     match argv with
     | [] => raise IndexError
     | prog :: _ =>
         print_stderr ("Usage: " ++ prog ++ " /path/to/liblldb.dylib") ;; sys_exit 1
     end
   else ret tt) ;;
  let liblldb_path := nth 1 argv "" in
  o <- dump_offsets_for targets h liblldb_path ;;
  print (Json.dumps (offsets_json o)).

Definition main : Host -> list string -> M unit := main_for INTERNAL_SYMBOLS.

(** A run of the script on a host; the traceback of an uncaught exception
    is left out of [err], as in [run_for]. *)
Definition run_for (targets : list (string * string)) (h : Host) (argv : list string) : process :=
  let '(r, st) := main_for targets h argv {| sys_stdout := ""; sys_stderr := "" |} in
  {| exit_status := match r with Returned _ => 0 | Exited c => c | Raised _ => 1 end;
     out := sys_stdout st;
     err := sys_stderr st;
     uncaught := match r with Raised e => Some e | _ => None end |}.

Definition run : Host -> list string -> process := run_for INTERNAL_SYMBOLS.

End Full.

(** ** Vocabulary of the statements *)

(** A line qualifies when it has three tokens or more. *)
Definition qualifies (line : string) : bool :=
  (3 <=? length (Py.split line))%nat.

(** The key under which a qualifying line is stored. *)
Definition line_key (line : string) : string :=
  strip_underscore (nth 2 (Py.split line) "").

(** The first token of a line. *)
Definition line_addr (line : string) : string :=
  nth 0 (Py.split line) "".

(** The entry of the report for a mangled name. *)
Definition entry_of (table : gmap string Z) (ref_offset : Z) (mangled_name : string)
    : option entry :=
  match table !! mangled_name with
  | Some a =>
      Some {| mangled := mangled_name;
              offset := Py.hex a;
              relative := Py.hex (a - ref_offset) |}
  | None => None
  end.

(** The line that [print] writes to the error stream for a label whose
    symbol is missing. *)
Definition warning (label : string) : string :=
  "Warning: " ++ label ++ " not found" ++ newline.

(** Everything the loop over the targets prints. *)
Fixpoint warnings (table : gmap string Z) (targets : list (string * string)) : string :=
  match targets with
  | [] => EmptyString
  | (mangled_name, label) :: targets' =>
      match table !! mangled_name with
      | Some _ => warnings table targets'
      | None => warning label ++ warnings table targets'
      end
  end.

(** The dictionary the loop over the targets builds, from [syms] on. *)
Definition resolve_all (table : gmap string Z) (ref_offset : Z)
    (targets : list (string * string)) (syms : list (string * option entry))
    : list (string * option entry) :=
  fold_left (fun d t => dict_set d (snd t) (entry_of table ref_offset (fst t))) targets syms.

(** The error stream after one more text. *)
Definition with_stderr (st : streams) (text : string) : streams :=
  {| sys_stdout := sys_stdout st; sys_stderr := sys_stderr st ++ text |}.

(** The streams of a process that starts. *)
Definition no_output : streams := {| sys_stdout := ""; sys_stderr := "" |}.

(** The path where [get_lldb_version] looks for [lldb]. *)
Definition lldb_bin (liblldb_path : string) : string :=
  OsPath.join (OsPath.dirname liblldb_path) [".."; "bin"; "lldb"].

(** A world in which every command succeeds and prints [text], and no
    path exists. *)
Definition world_with_nm (text : string) : World :=
  {| subprocess_run := fun _ => {| returncode := 0; stdout := text; stderr := "" |};
     path_exists := fun _ => false |}.

(** A world in which every command fails with [status] and the error text
    [message]. *)
Definition world_nm_fails (status : Z) (message : string) : World :=
  {| subprocess_run := fun _ => {| returncode := status; stdout := ""; stderr := message |};
     path_exists := fun _ => false |}.

(** A world in which [nm] succeeds and prints [text], and in which [lldb]
    exists beside the library, ends with [status] and prints [banner]. *)
Definition world_with_lldb (text : string) (status : Z) (banner : string) : World :=
  {| subprocess_run := fun cmd =>
       match cmd with
       | "nm" :: _ => {| returncode := 0; stdout := text; stderr := "" |}
       | _ => {| returncode := status; stdout := banner; stderr := "" |}
       end;
     path_exists := fun _ => true |}.

(** The call of [lldb --version], when there is one, returns. *)
Definition probe_returns (h : Host) (liblldb_path : string) : Prop :=
  path_exists (host_world h) (lldb_bin liblldb_path) = true ->
  spawn_raises h [lldb_bin liblldb_path; "--version"] = None.

(** The host of a world in which no call raises. *)
Definition host_of (w : World) : Host :=
  {| host_world := w; spawn_raises := fun _ => None |}.

(** A host on which [nm] prints [text], and [../bin/lldb] exists beside
    the library but cannot be executed. *)
Definition host_lldb_unrunnable (text : string) : Host :=
  {| host_world :=
       {| subprocess_run := fun _ => {| returncode := 0; stdout := text; stderr := "" |};
          path_exists := fun _ => true |};
     spawn_raises := fun cmd =>
       match cmd with
       | "nm" :: _ => None
       | _ => Some OSError
       end |}.

(** A host on which no command can be started. *)
Definition host_without_commands : Host :=
  {| host_world := world_with_nm ""; spawn_raises := fun _ => Some OSError |}.


Definition AddTypeSummary : string :=
  "_ZN12lldb_private16TypeCategoryImpl14AddTypeSummaryEN4llvm9StringRefEN4lldb18FormatterMatchTypeENSt3__110shared_ptrINS_15TypeSummaryImplEEE".

(** The target list of the end-to-end scenario. *)
Definition scenario_targets : list (string * string) :=
  [(AddTypeSummary, "TypeCategoryImpl::AddTypeSummary")].

(** The dump of the end-to-end scenario, as the specification writes it. *)
Definition scenario_dump : string :=
  "1000 T " ++ REFERENCE_SYMBOL ++ newline
  ++ "2000 T " ++ AddTypeSummary ++ newline.

(** The same dump as [nm] prints it on macOS, where every name carries one
    more underscore in front. *)
Definition scenario_dump_macos : string :=
  "1000 T _" ++ REFERENCE_SYMBOL ++ newline
  ++ "2000 T _" ++ AddTypeSummary ++ newline.

(** A command line for the examples. *)
Definition example_path : string := "/usr/lib/liblldb.dylib".
Definition example_argv : list string := ["dump_offsets.py"; example_path].

(** The table of [scenario_dump_macos]. *)
Definition scenario_table : gmap string Z :=
  <[AddTypeSummary := 8192]> (<[REFERENCE_SYMBOL := 4096]> ∅).

(** A target that [scenario_dump_macos] does not list. *)
Definition FormatManager_GetCategory : string :=
  "_ZN12lldb_private13FormatManager11GetCategoryENS_11ConstStringEb".

(** The table of [scenario_dump]: the names have lost their underscore. *)
Definition stripped_table : gmap string Z :=
  <[Py.tail AddTypeSummary := 8192]> (<[Py.tail REFERENCE_SYMBOL := 4096]> ∅).

(** A dump in which the target lies below the reference symbol. *)
Definition reversed_dump : string :=
  "2000 T _" ++ REFERENCE_SYMBOL ++ newline
  ++ "1000 T _" ++ AddTypeSummary ++ newline.

Definition reversed_table : gmap string Z :=
  <[AddTypeSummary := 4096]> (<[REFERENCE_SYMBOL := 8192]> ∅).

(** A dump that lists one name twice. *)
Definition duplicate_dump : string :=
  "1000 T _twice" ++ newline ++ "3000 t _twice" ++ newline ++ "2000 T _once" ++ newline.

(** The header that [nm] prints for one slice of a universal binary. *)
Definition arch_header : string :=
  "/usr/lib/liblldb.dylib (for architecture arm64):".


(** A text that starts with a minus sign. *)
Definition starts_with_minus (s : string) : bool :=
  match s with
  | String "-" _ => true
  | _ => false
  end.

(** A run of decimal digits that is not empty. *)
Fixpoint all_digits (s : string) : bool :=
  match s with
  | String c s' => Re.isdigit c && all_digits s'
  | EmptyString => true
  end.

Definition is_number (s : string) : bool :=
  match s with
  | EmptyString => false
  | _ => all_digits s
  end.

(** A text of the form [X.Y.Z], three numbers and two dots. *)
Definition is_version_triple (v : string) : Prop :=
  exists a b c : string,
    is_number a = true /\ is_number b = true /\ is_number c = true /\
    v = a ++ "." ++ b ++ "." ++ c.

(** A text in which the character [x] occurs. *)
Fixpoint has_char (x : ascii) (s : string) : bool :=
  match s with
  | String c s' => (x =? c)%char || has_char x s'
  | EmptyString => false
  end.

(** A text that starts with a decimal digit. *)
Definition starts_with_digit (s : string) : bool :=
  match s with
  | String c _ => Re.isdigit c
  | EmptyString => false
  end.

(** The keys that the qualifying lines of a dump store. *)
Definition stored_keys (lines : list string) : list string :=
  map line_key (List.filter qualifies lines).

(** [l] is the last qualifying line of [lines] that stores the key [k]. *)
Definition is_last_line_for (lines : list string) (k l : string) : Prop :=
  qualifies l = true /\ line_key l = k /\
  exists pre post : list string,
    lines = (pre ++ l :: post)%list /\
    forall l', In l' post -> qualifies l' = true -> line_key l' <> k.

(** [scenario_dump_macos] with its two lines the other way round. *)
Definition scenario_dump_swapped : string :=
  "2000 T _" ++ AddTypeSummary ++ newline
  ++ "1000 T _" ++ REFERENCE_SYMBOL ++ newline.

(** A dump that [nm] prints for a library without symbols. *)
Definition no_symbols_dump : string :=
  newline ++ "liblldb.dylib:" ++ newline ++ "                 U _malloc" ++ newline.

(** Two targets under one label. *)
Definition twin_targets : list (string * string) :=
  [(FormatManager_GetCategory, "GetCategory"); (AddTypeSummary, "GetCategory")].

(** ** The built-ins at work *)

Example split_tokens_example :
  Py.split "  0000000000001000 T  _foo extra " = ["0000000000001000"; "T"; "_foo"; "extra"].
Proof. reflexivity. Qed.

Example splitlines_example :
  Py.splitlines ("a" ++ newline ++ String "013" newline ++ "b" ++ newline) = ["a"; ""; "b"].
Proof. reflexivity. Qed.

Example int16_accepts :
  Py.int16 "0000000000001000" = Some 4096 /\ Py.int16 "-0x1000" = Some (-4096) /\
  Py.int16 "0X_1F_f" = Some 511 /\ Py.int16 "+a" = Some 10 /\ Py.int16 "0b1" = Some 177.
Proof. repeat split; reflexivity. Qed.

Example int16_rejects :
  Py.int16 "" = None /\ Py.int16 "0x" = None /\ Py.int16 "_1" = None /\
  Py.int16 "1_" = None /\ Py.int16 "1__0" = None /\ Py.int16 "U" = None /\
  Py.int16 "10g" = None.
Proof. repeat split; reflexivity. Qed.

Example hex_examples :
  Py.hex 4096 = "0x1000" /\ Py.hex (-4096) = "-0x1000" /\ Py.hex 0 = "0x0" /\
  Py.hex 255 = "0xff".
Proof. repeat split; reflexivity. Qed.

Example lldb_bin_examples :
  lldb_bin "/opt/llvm/lib/liblldb.dylib" = "/opt/llvm/lib/../bin/lldb" /\
  lldb_bin "liblldb.dylib" = "../bin/lldb" /\
  lldb_bin "/liblldb.dylib" = "/../bin/lldb".
Proof. repeat split; reflexivity. Qed.

Example search_examples :
  Re.search Re.version_at "lldb version 21.1.7" = Some "21.1.7" /\
  Re.search Re.version_at "version 21.1 (clang version 17.0.6x)" = Some "17.0.6" /\
  Re.search Re.version_at "lldb-1500" = None /\
  Re.search Re.libname_at "/opt/llvm/lib/liblldb.21.1.7.dylib" = Some "21.1.7" /\
  Re.search Re.libname_at "/opt/llvm/lib/liblldb.dylib" = None.
Proof. repeat split; reflexivity. Qed.

Example dumps_examples :
  Json.dumps Json.Null = "null" /\
  Json.dumps (Json.Object []) = "{}" /\
  Json.dumps (Json.Object [("a", Json.Null)])
  = "{" ++ newline ++ "  " ++ Json.quote "a" ++ ": null" ++ newline ++ "}".
Proof. repeat split; reflexivity. Qed.

(** ** Properties of the built-ins *)

Section Hex.

Lemma hex_char_cases (d : Z) :
  0 <= d < 16 ->
  d = 0 \/ d = 1 \/ d = 2 \/ d = 3 \/ d = 4 \/ d = 5 \/ d = 6 \/ d = 7 \/
  d = 8 \/ d = 9 \/ d = 10 \/ d = 11 \/ d = 12 \/ d = 13 \/ d = 14 \/ d = 15.
Proof. lia. Qed.

Ltac each_digit H :=
  apply hex_char_cases in H;
  repeat (destruct H as [H | H]; [subst; vm_compute; try reflexivity |]);
  subst; vm_compute; try reflexivity.

Lemma digit16_hex_char (d : Z) :
  0 <= d < 16 -> Py.digit16 (Py.hex_char d) = Some d.
Proof. intros H. each_digit H. Qed.

Lemma hex_char_not_underscore (d : Z) :
  0 <= d < 16 -> Py.is_underscore (Py.hex_char d) = false.
Proof. intros H. each_digit H. Qed.

(** A digit in front of a text is read as a digit. *)
Lemma scan_digits_hex_char (d : Z) (s : string) (prev : ascii) (acc : Z) :
  0 <= d < 16 ->
  Py.scan_digits (String (Py.hex_char d) s) prev acc
  = Py.scan_digits s (Py.hex_char d) (acc * 16 + d).
Proof.
  intros H. cbn [Py.scan_digits].
  rewrite hex_char_not_underscore, digit16_hex_char by assumption.
  reflexivity.
Qed.

(** Reading the digits that [hex_digits] wrote gives the number back. *)
Lemma scan_hex_digits (fuel : nat) :
  forall (n : Z) (rest : string) (prev : ascii) (acc : Z),
    0 <= n < 16 ^ Z.of_nat (S fuel) ->
    exists k : Z,
      0 <= k /\
      Py.scan_digits (Py.hex_digits (S fuel) n rest) prev acc
      = Py.scan_digits rest (Py.hex_char (n mod 16)) (acc * 16 ^ k + n).
Proof.
  induction fuel as [| fuel IH]; intros n rest prev acc Hn;
    assert (Hmod : 0 <= n mod 16 < 16) by (apply Z.mod_pos_bound; lia);
    pose proof (Z.div_mod n 16 ltac:(lia)) as Hdm.
  - (* one digit *)
    assert (Hq : n / 16 = 0) by (apply Z.div_small; cbn in Hn; lia).
    exists 1. split; [lia |].
    cbn [Py.hex_digits]. rewrite Hq. cbn [Z.eqb].
    rewrite scan_digits_hex_char by assumption. f_equal. lia.
  - change (Py.hex_digits (S (S fuel)) n rest)
      with (let acc' := String (Py.hex_char (n mod 16)) rest in
            if n / 16 =? 0 then acc' else Py.hex_digits (S fuel) (n / 16) acc').
    cbv zeta. destruct (Z.eqb_spec (n / 16) 0) as [Hq | Hq].
    + exists 1. split; [lia |].
      rewrite scan_digits_hex_char by assumption. f_equal. lia.
    + assert (Hq' : 0 <= n / 16 < 16 ^ Z.of_nat (S fuel)).
      { split; [apply Z.div_pos; lia |].
        apply Z.div_lt_upper_bound; [lia |].
        rewrite (Nat2Z.inj_succ (S fuel)), Z.pow_succ_r in Hn by lia. lia. }
      destruct (IH (n / 16) (String (Py.hex_char (n mod 16)) rest) prev acc Hq')
        as (k & Hk & Heq).
      exists (k + 1). split; [lia |].
      rewrite Heq, scan_digits_hex_char by assumption.
      f_equal. rewrite Z.pow_add_r by lia. lia.
Qed.

(** [hex_digits] starts with a digit. *)
Lemma hex_digits_head (fuel : nat) :
  forall (n : Z) (rest : string),
    0 <= n ->
    exists (d : Z) (s : string),
      0 <= d < 16 /\ Py.hex_digits (S fuel) n rest = String (Py.hex_char d) s.
Proof.
  induction fuel as [| fuel IH]; intros n rest Hn.
  - cbn [Py.hex_digits]. exists (n mod 16).
    destruct (n / 16 =? 0); eexists; (split; [apply Z.mod_pos_bound; lia | reflexivity]).
  - change (Py.hex_digits (S (S fuel)) n rest)
      with (let acc' := String (Py.hex_char (n mod 16)) rest in
            if n / 16 =? 0 then acc' else Py.hex_digits (S fuel) (n / 16) acc').
    cbv zeta. destruct (n / 16 =? 0).
    + exists (n mod 16). eexists. split; [apply Z.mod_pos_bound; lia | reflexivity].
    + apply IH. apply Z.div_pos; lia.
Qed.

(** The budget of [hex] is enough for every number. *)
Lemma hex_fuel_enough (m : Z) :
  0 <= m -> 0 <= m < 16 ^ Z.of_nat (S (Z.to_nat (Z.log2 m))).
Proof.
  intros Hm. split; [assumption |].
  rewrite Nat2Z.inj_succ, Z2Nat.id by apply Z.log2_nonneg.
  destruct (Z.eq_dec m 0) as [-> | Hne].
  - cbn. lia.
  - pose proof (Z.log2_spec m ltac:(lia)) as [_ Hlt].
    eapply Z.lt_le_trans; [exact Hlt |].
    change 16 with (2 ^ 4). rewrite <- Z.pow_mul_r by (pose proof (Z.log2_nonneg m); lia).
    apply Z.pow_le_mono_r; pose proof (Z.log2_nonneg m); lia.
Qed.

Lemma take_prefix_0x (d : Z) (s : string) :
  0 <= d < 16 ->
  Py.take_prefix (String "0" (String "x" (String (Py.hex_char d) s)))
  = String (Py.hex_char d) s.
Proof. intros H. each_digit H. Qed.

(** [int] reads a sign, [0x] and the digits written by [hex_digits]. *)
Lemma int16_signed_digits (text : string) (sgn m : Z) (fuel : nat) :
  0 <= m < 16 ^ Z.of_nat (S fuel) ->
  Py.take_sign (Py.lstrip text)
  = (sgn, String "0" (String "x" (Py.hex_digits (S fuel) m ""))) ->
  Py.int16 text = Some (sgn * m).
Proof.
  intros Hm Hsign.
  destruct (hex_digits_head fuel m "" ltac:(lia)) as (d & s & Hd & Hds).
  destruct (scan_hex_digits fuel m "" "000"%char 0 Hm) as (k & Hk & Hscan).
  assert (Hmod : 0 <= m mod 16 < 16) by (apply Z.mod_pos_bound; lia).
  unfold Py.int16. rewrite Hsign. cbv beta iota zeta.
  rewrite Hds, take_prefix_0x by assumption.
  rewrite hex_char_not_underscore, digit16_hex_char by assumption.
  rewrite <- Hds, Hscan. cbn [Py.scan_digits].
  rewrite hex_char_not_underscore by assumption.
  cbn [Py.all_space]. f_equal; lia.
Qed.

(** [int(hex(n), 16) == n], for every integer, negative ones too. *)
Lemma int16_hex (n : Z) : Py.int16 (Py.hex n) = Some n.
Proof.
  unfold Py.hex. destruct (Z.ltb_spec n 0) as [Hneg | Hpos].
  - replace (Some n) with (Some (-1 * Z.abs n)) by (f_equal; lia).
    apply int16_signed_digits with (fuel := Z.to_nat (Z.log2 (Z.abs n))).
    + apply hex_fuel_enough. lia.
    + reflexivity.
  - replace (Some n) with (Some (1 * Z.abs n)) by (f_equal; lia).
    apply int16_signed_digits with (fuel := Z.to_nat (Z.log2 (Z.abs n))).
    + apply hex_fuel_enough. lia.
    + reflexivity.
Qed.

(** Two integers with the same [hex] text are the same integer. *)
Lemma hex_inj (x y : Z) : Py.hex x = Py.hex y -> x = y.
Proof.
  intros H. pose proof (int16_hex x) as Hx. rewrite H, int16_hex in Hx.
  congruence.
Qed.

End Hex.

(** ** The loader *)

Section Loader.

Implicit Types (table : gmap string Z) (line : string) (lines : list string).

(** The tokens of [split] are not empty and hold no white space, so the
    white space that [int] would strip is never there. *)
Lemma split_go_tokens (s : string) :
  Py.has_space (fst (Py.split_go s)) = false /\
  Forall (fun tok => tok <> EmptyString /\ Py.has_space tok = false) (snd (Py.split_go s)).
Proof.
  induction s as [| c s [IHcur IHtoks]]; cbn [Py.split_go].
  - split; [reflexivity | constructor].
  - destruct (Py.split_go s) as [cur toks]. cbn [fst snd] in *.
    destruct (Py.isspace c) eqn:Hc; cbn [fst snd].
    + split; [reflexivity |].
      destruct cur; cbn [Py.flush]; [assumption |].
      constructor; [split; [discriminate | assumption] | assumption].
    + split; [| assumption]. cbn [Py.has_space]. rewrite Hc. exact IHcur.
Qed.

Lemma split_tokens (s : string) :
  Forall (fun tok => tok <> EmptyString /\ Py.has_space tok = false) (Py.split s).
Proof.
  unfold Py.split. pose proof (split_go_tokens s) as [Hcur Htoks].
  destruct (Py.split_go s) as [cur toks]. cbn [fst snd] in *.
  destruct cur; cbn [Py.flush]; [assumption |].
  constructor; [split; [discriminate | assumption] | assumption].
Qed.

(** What [int] skips is white space for [str.split] too. *)
Lemma int_isspace_isspace (c : ascii) : Py.int_isspace c = true -> Py.isspace c = true.
Proof.
  unfold Py.int_isspace, Py.isspace. cbv zeta.
  destruct ((9 <=? N_of_ascii c)%N && (N_of_ascii c <=? 13)%N); [reflexivity |].
  destruct (N_of_ascii c =? 32)%N; [intros _; apply orb_true_iff; left; apply orb_true_iff;
                                    left; apply orb_true_r |].
  destruct (N_of_ascii c =? 133)%N; [intros _; apply orb_true_iff; left; apply orb_true_r |].
  destruct (N_of_ascii c =? 160)%N; [intros _; apply orb_true_r | discriminate].
Qed.

Lemma lstrip_no_space (s : string) : Py.has_space s = false -> Py.lstrip s = s.
Proof.
  destruct s as [| c s]; [reflexivity |]. cbn [Py.has_space Py.lstrip].
  intros H. apply orb_false_elim in H as [Hc _].
  destruct (Py.int_isspace c) eqn:Hi; [| reflexivity].
  rewrite (int_isspace_isspace c Hi) in Hc. discriminate Hc.
Qed.

(** [int] has nothing to strip from a token of a line. *)
Lemma tokens_need_no_strip line (tok : string) :
  In tok (Py.split line) -> tok <> EmptyString /\ Py.lstrip tok = tok.
Proof.
  intros Hin. pose proof (split_tokens line) as Hall.
  rewrite List.Forall_forall in Hall. destruct (Hall tok Hin) as [Hne Hsp].
  split; [exact Hne | apply lstrip_no_space; exact Hsp].
Qed.

Lemma parse_line_short table line :
  qualifies line = false -> parse_line table line = Returned table.
Proof. unfold qualifies, parse_line. intros ->. reflexivity. Qed.

Lemma parse_line_long table line :
  qualifies line = true ->
  parse_line table line
  = match Py.int16 (line_addr line) with
    | Some a => Returned (<[line_key line := a]> table)
    | None => Raised ValueError
    end.
Proof. unfold qualifies, parse_line. intros ->. reflexivity. Qed.

Lemma qualifies_tokens line addr typ name rest :
  Py.split line = addr :: typ :: name :: rest ->
  qualifies line = true /\ line_addr line = addr /\ line_key line = strip_underscore name.
Proof. unfold qualifies, line_addr, line_key. intros ->. repeat split. Qed.

Lemma parse_lines_app lines1 lines2 table :
  parse_lines (lines1 ++ lines2) table
  = match parse_lines lines1 table with
    | Returned table' => parse_lines lines2 table'
    | Exited c => Exited c
    | Raised e => Raised e
    end.
Proof.
  revert table. induction lines1 as [| l lines1 IH]; intros table; [reflexivity |].
  cbn [app parse_lines]. destruct (parse_line table l); auto.
Qed.


(** A key that no later line stores keeps its address. *)
Lemma parse_lines_other_keys lines : forall table table' k,
  (forall l, In l lines -> qualifies l = true -> line_key l <> k) ->
  parse_lines lines table = Returned table' ->
  table' !! k = table !! k.
Proof.
  induction lines as [| l lines IH]; intros table table' k Hk Hrun; cbn [parse_lines] in Hrun.
  - congruence.
  - destruct (qualifies l) eqn:Hq.
    + rewrite (parse_line_long _ _ Hq) in Hrun.
      destruct (Py.int16 (line_addr l)) as [a |]; [| discriminate].
      rewrite (IH _ _ k (fun l' Hin => Hk l' (or_intror Hin)) Hrun).
      apply lookup_insert_ne. apply Hk; [left; reflexivity | assumption].
    + rewrite (parse_line_short _ _ Hq) in Hrun.
      apply (IH _ _ k (fun l' Hin => Hk l' (or_intror Hin)) Hrun).
Qed.

(** The loop ends well when every address is a numeral. *)
Lemma parse_lines_total lines : forall table,
  (forall l, In l lines -> qualifies l = true -> Py.int16 (line_addr l) <> None) ->
  exists table', parse_lines lines table = Returned table'.
Proof.
  induction lines as [| l lines IH]; intros table Hok; cbn [parse_lines].
  - eauto.
  - destruct (qualifies l) eqn:Hq.
    + rewrite (parse_line_long _ _ Hq).
      destruct (Py.int16 (line_addr l)) as [a |] eqn:Ha.
      * apply IH. intros l' Hin. apply Hok. right. exact Hin.
      * exfalso. apply (Hok l); [left; reflexivity | assumption | assumption].
    + rewrite (parse_line_short _ _ Hq).
      apply IH. intros l' Hin. apply Hok. right. exact Hin.
Qed.

(** The loop ends in [ValueError] when some address is no numeral. *)
Lemma parse_lines_raises lines : forall table l,
  In l lines -> qualifies l = true -> Py.int16 (line_addr l) = None ->
  parse_lines lines table = Raised ValueError.
Proof.
  induction lines as [| l0 lines IH]; intros table l Hin Hq Ha; [destruct Hin |].
  cbn [parse_lines]. destruct (qualifies l0) eqn:Hq0.
  - rewrite (parse_line_long _ _ Hq0).
    destruct (Py.int16 (line_addr l0)) as [a |] eqn:Ha0; [| reflexivity].
    destruct Hin as [-> | Hin]; [congruence |]. eapply IH; eassumption.
  - rewrite (parse_line_short _ _ Hq0).
    destruct Hin as [-> | Hin]; [congruence |]. eapply IH; eassumption.
Qed.

(** C2. The name of every parsed line loses exactly one leading
    underscore before it becomes a key of the table: [_Foo] is stored as
    [Foo], [Foo] as [Foo], and a name without a leading underscore is left
    as it is. *)
Theorem strip_one_leading_underscore :
  (forall s : string, strip_underscore (String "_" s) = s) /\
  (forall s : string, Py.startswith_underscore s = false -> strip_underscore s = s) /\
  strip_underscore "_Foo" = "Foo" /\
  strip_underscore "Foo" = "Foo" /\
  (forall table line addr typ name rest a,
      Py.split line = addr :: typ :: name :: rest ->
      Py.int16 addr = Some a ->
      exists table',
        parse_line table line = Returned table' /\
        table' !! strip_underscore name = Some a /\
        forall k, k <> strip_underscore name -> table' !! k = table !! k).
Proof.
  split; [reflexivity |]. split.
  { intros s H. unfold strip_underscore. rewrite H. reflexivity. }
  split; [reflexivity |]. split; [reflexivity |].
  intros table line addr typ name rest a Hsplit Haddr.
  destruct (qualifies_tokens _ _ _ _ _ Hsplit) as (Hq & Ha & Hk).
  rewrite (parse_line_long _ _ Hq), Ha, Hk, Haddr.
  eexists. split; [reflexivity |]. split.
  - apply lookup_insert_eq.
  - intros k Hne. apply lookup_insert_ne. congruence.
Qed.


(** C8. When several qualifying lines have the same name after
    normalisation, the table maps that name to the address of the last of
    them. *)
Theorem last_occurrence_wins (text : string) (pre post : list string) line table (a : Z) :
  Py.splitlines text = (pre ++ line :: post)%list ->
  qualifies line = true ->
  Py.int16 (line_addr line) = Some a ->
  (forall l, In l post -> qualifies l = true -> line_key l <> line_key line) ->
  parse_nm_output text = Returned table ->
  table !! line_key line = Some a.
Proof.
  intros Hlines Hq Ha Hpost Hrun. unfold parse_nm_output in Hrun.
  rewrite Hlines, parse_lines_app in Hrun.
  destruct (parse_lines pre ∅) as [table1 | |]; try discriminate.
  cbn [parse_lines] in Hrun. rewrite (parse_line_long _ _ Hq), Ha in Hrun.
  rewrite (parse_lines_other_keys _ _ _ _ Hpost Hrun).
  apply lookup_insert_eq.
Qed.

(** C10. A line of three tokens or more whose first token is no numeral of
    base 16 ends the loader in an uncaught [ValueError]: the header that
    [nm] prints for a slice of a universal binary is such a line.  The
    loader returns a table exactly when the first token of every
    qualifying line is a numeral. *)
Theorem bad_address_raises :
  (exists line,
      (3 <= length (Py.split line))%nat /\
      Py.int16 (nth 0 (Py.split line) "") = None /\
      parse_nm_output line = Raised ValueError /\
      forall prog path,
        run (world_with_nm line) [prog; path]
        = {| exit_status := 1; out := ""; err := ""; uncaught := Some ValueError |}) /\
  (forall text,
      (forall l, In l (Py.splitlines text) -> qualifies l = true ->
                 Py.int16 (line_addr l) <> None) ->
      exists table, parse_nm_output text = Returned table) /\
  (forall text l,
      In l (Py.splitlines text) -> qualifies l = true ->
      Py.int16 (line_addr l) = None ->
      parse_nm_output text = Raised ValueError).
Proof.
  split; [| split].
  - exists arch_header. repeat split; try reflexivity.
    vm_compute. lia.
  - intros text Hok. apply parse_lines_total. exact Hok.
  - intros text l Hin Hq Ha. eapply parse_lines_raises; eassumption.
Qed.

End Loader.

(** ** The resolver and the report *)

Section Resolver.

Implicit Types (table : gmap string Z) (targets : list (string * string))
  (syms : list (string * option entry)) (st : streams) (w : World).

Lemma append_assoc (a b c : string) : (a ++ b) ++ c = a ++ b ++ c.
Proof.
  induction a as [| x a IH]; [reflexivity |].
  change (String x ((a ++ b) ++ c) = String x (a ++ b ++ c)). f_equal. exact IH.
Qed.

Lemma append_empty_r (a : string) : a ++ "" = a.
Proof.
  induction a as [| x a IH]; [reflexivity |].
  change (String x (a ++ "") = String x a). f_equal. exact IH.
Qed.

Lemma with_stderr_empty st : with_stderr st "" = st.
Proof.
  destruct st. unfold with_stderr. cbn [sys_stdout sys_stderr].
  rewrite append_empty_r. reflexivity.
Qed.

Lemma with_stderr_twice st (a b : string) :
  with_stderr (with_stderr st a) b = with_stderr st (a ++ b).
Proof.
  unfold with_stderr. cbn [sys_stdout sys_stderr].
  rewrite append_assoc. reflexivity.
Qed.

Lemma dict_get_set {V} (d : list (string * V)) (k k' : string) (v : V) :
  dict_get (dict_set d k v) k' = if String.eqb k k' then Some v else dict_get d k'.
Proof.
  induction d as [| [k0 v0] d IH]; cbn [dict_set dict_get].
  - reflexivity.
  - destruct (String.eqb_spec k0 k) as [-> | Hne]; cbn [dict_get].
    + destruct (String.eqb k k'); reflexivity.
    + rewrite IH. destruct (String.eqb_spec k0 k') as [-> | Hne'].
      * destruct (String.eqb_spec k k'); [congruence | reflexivity].
      * reflexivity.
Qed.

(** One round of the loop over the targets. *)
Lemma resolve_target_spec table (r : Z) syms (m l : string) st :
  resolve_target table r syms (m, l) st
  = (Returned (dict_set syms l (entry_of table r m)),
     with_stderr st (warnings table [(m, l)])).
Proof.
  unfold resolve_target, entry_of. cbn [warnings].
  destruct (table !! m) as [a |].
  - unfold ret. rewrite with_stderr_empty. reflexivity.
  - unfold bind, print_stderr, ret, warning, with_stderr.
    rewrite append_empty_r, !append_assoc. reflexivity.
Qed.

(** The loop over the targets never stops early. *)
Lemma for_each_resolve table (r : Z) targets : forall syms st,
  for_each targets (resolve_target table r) syms st
  = (Returned (resolve_all table r targets syms), with_stderr st (warnings table targets)).
Proof.
  induction targets as [| [m l] targets IH]; intros syms st.
  - cbn. unfold ret. rewrite with_stderr_empty. reflexivity.
  - cbn [for_each]. unfold bind at 1. rewrite resolve_target_spec, IH.
    rewrite with_stderr_twice. cbn [warnings resolve_all fold_left fst snd].
    destruct (table !! m); [| rewrite append_empty_r]; reflexivity.
Qed.

Lemma resolve_all_other table (r : Z) targets : forall syms (l : string),
  ~ In l (map snd targets) ->
  dict_get (resolve_all table r targets syms) l = dict_get syms l.
Proof.
  induction targets as [| [m0 l0] targets IH]; intros syms l Hnot; [reflexivity |].
  cbn [resolve_all fold_left fst snd]. cbn [map snd In] in Hnot.
  change (dict_get (resolve_all table r targets
                      (dict_set syms l0 (entry_of table r m0))) l = dict_get syms l).
  rewrite IH by tauto. rewrite dict_get_set.
  destruct (String.eqb_spec l0 l); [tauto | reflexivity].
Qed.

(** With labels that are all different, every target has its own entry. *)
Lemma resolve_all_lookup table (r : Z) targets : forall syms (m l : string),
  List.NoDup (map snd targets) ->
  In (m, l) targets ->
  dict_get (resolve_all table r targets syms) l = Some (entry_of table r m).
Proof.
  induction targets as [| [m0 l0] targets IH]; intros syms m l Hnd Hin; [destruct Hin |].
  cbn [map snd] in Hnd. apply List.NoDup_cons_iff in Hnd as [Hfresh Hnd].
  cbn [resolve_all fold_left fst snd].
  change (dict_get (resolve_all table r targets
                      (dict_set syms l0 (entry_of table r m0))) l
          = Some (entry_of table r m)).
  destruct Hin as [Heq | Hin].
  - injection Heq as -> ->. rewrite resolve_all_other by assumption.
    rewrite dict_get_set, String.eqb_refl. reflexivity.
  - apply IH; assumption.
Qed.

Lemma warnings_has_label table targets (m l : string) :
  In (m, l) targets -> table !! m = None ->
  exists before after, warnings table targets = before ++ warning l ++ after.
Proof.
  induction targets as [| [m0 l0] targets IH]; intros Hin Hm; [destruct Hin |].
  cbn [warnings]. destruct Hin as [Heq | Hin].
  - injection Heq as -> ->. rewrite Hm. exists "". eexists. reflexivity.
  - destruct (IH Hin Hm) as (before & after & ->).
    destruct (table !! m0).
    + eauto.
    + exists (warning l0 ++ before), after. rewrite append_assoc. reflexivity.
Qed.

Lemma internal_labels_nodup : List.NoDup (map snd INTERNAL_SYMBOLS).
Proof.
  unfold INTERNAL_SYMBOLS. cbn [map snd].
  repeat (apply List.NoDup_cons; [cbn [In]; intuition discriminate |]).
  apply List.NoDup_nil.
Qed.

(** [dump_offsets], case by case. *)
Lemma dump_offsets_for_spec targets w (path : string) st :
  dump_offsets_for targets w path st
  = let result := subprocess_run w ["nm"; path] in
    if returncode result =? 0 then
      match parse_nm_output (stdout result) with
      | Returned table =>
          match table !! REFERENCE_SYMBOL with
          | Some r =>
              (Returned {| version := get_lldb_version w path;
                           reference_symbol := REFERENCE_SYMBOL;
                           reference_offset := Py.hex r;
                           symbols := resolve_all table r targets [] |},
               with_stderr st (warnings table targets))
          | None =>
              (Exited 1,
               with_stderr st
                 ("Reference symbol " ++ REFERENCE_SYMBOL ++ " not found!" ++ newline))
          end
      | Exited c => (Exited c, st)
      | Raised e => (Raised e, st)
      end
    else (Exited 1, with_stderr st ("nm failed: " ++ stderr result ++ newline)).
Proof.
  unfold dump_offsets_for. cbv zeta.
  destruct (returncode (subprocess_run w ["nm"; path]) =? 0).
  - unfold bind at 1. unfold ret at 1. unfold bind at 1. unfold lift.
    destruct (parse_nm_output (stdout (subprocess_run w ["nm"; path]))) as [table | c | e];
      try reflexivity.
    destruct (table !! REFERENCE_SYMBOL) as [r |].
    + unfold bind. rewrite for_each_resolve. reflexivity.
    + unfold bind, print_stderr, sys_exit, with_stderr.
      rewrite !append_assoc. reflexivity.
  - unfold bind, print_stderr, sys_exit, with_stderr.
    rewrite !append_assoc. reflexivity.
Qed.

(** [main], for an argument list that names a library. *)
Lemma run_for_spec targets w (prog path : string) (more : list string) :
  run_for targets w (prog :: path :: more)
  = match dump_offsets_for targets w path no_output with
    | (Returned o, st) =>
        {| exit_status := 0;
           out := sys_stdout st ++ Json.dumps (offsets_json o) ++ newline;
           err := sys_stderr st;
           uncaught := None |}
    | (Exited c, st) =>
        {| exit_status := c; out := sys_stdout st; err := sys_stderr st; uncaught := None |}
    | (Raised e, st) =>
        {| exit_status := 1; out := sys_stdout st; err := sys_stderr st; uncaught := Some e |}
    end.
Proof.
  unfold run_for, main_for. cbn [length Nat.ltb Nat.leb nth].
  unfold bind at 1. unfold ret at 1. unfold bind at 1. fold no_output.
  destruct (dump_offsets_for targets w path no_output) as [[o | c | e] st]; reflexivity.
Qed.

(** The report of a run that finds the reference symbol. *)
Lemma dump_offsets_for_report targets w (path : string) table (r : Z) st :
  returncode (subprocess_run w ["nm"; path]) = 0 ->
  parse_nm_output (stdout (subprocess_run w ["nm"; path])) = Returned table ->
  table !! REFERENCE_SYMBOL = Some r ->
  dump_offsets_for targets w path st
  = (Returned {| version := get_lldb_version w path;
                 reference_symbol := REFERENCE_SYMBOL;
                 reference_offset := Py.hex r;
                 symbols := resolve_all table r targets [] |},
     with_stderr st (warnings table targets)).
Proof.
  intros Hrc Hparse Href. rewrite dump_offsets_for_spec. cbv zeta.
  rewrite Hrc, Hparse, Href. reflexivity.
Qed.

(** C4. When the table has no reference symbol, the process ends with
    status 1, after one line on the error stream that says so, and with
    nothing on standard output. *)
Theorem missing_reference_is_fatal targets w (prog path : string) (more : list string) table :
  returncode (subprocess_run w ["nm"; path]) = 0 ->
  parse_nm_output (stdout (subprocess_run w ["nm"; path])) = Returned table ->
  table !! REFERENCE_SYMBOL = None ->
  run_for targets w (prog :: path :: more)
  = {| exit_status := 1;
       out := "";
       err := "Reference symbol _ZN4lldb10SBDebugger10InitializeEv not found!" ++ newline;
       uncaught := None |}.
Proof.
  intros Hrc Hparse Href. rewrite run_for_spec, dump_offsets_for_spec. cbv zeta.
  rewrite Hrc, Hparse, Href. reflexivity.
Qed.

(** C5. When [nm] ends with a status that is not 0, the process ends with
    status 1, after a line on the error stream that carries the error text
    of [nm], and with nothing on standard output. *)
Theorem nm_failure_is_fatal targets w (prog path : string) (more : list string) :
  returncode (subprocess_run w ["nm"; path]) <> 0 ->
  run_for targets w (prog :: path :: more)
  = {| exit_status := 1;
       out := "";
       err := "nm failed: " ++ stderr (subprocess_run w ["nm"; path]) ++ newline;
       uncaught := None |}.
Proof.
  intros Hrc. rewrite run_for_spec, dump_offsets_for_spec. cbv zeta.
  apply Z.eqb_neq in Hrc. rewrite Hrc. reflexivity.
Qed.

(** C3. A target that the table has, in a run that finds the reference
    symbol, gets an entry that is not [null]: its [relative] field is
    [hex] of the difference of the two addresses as signed integers, and
    reading that text back in base 16 gives the difference again, also
    when it is negative. *)
Theorem found_target_relative_offset w (path : string) table (r a : Z) (m l : string) :
  returncode (subprocess_run w ["nm"; path]) = 0 ->
  parse_nm_output (stdout (subprocess_run w ["nm"; path])) = Returned table ->
  table !! REFERENCE_SYMBOL = Some r ->
  In (m, l) INTERNAL_SYMBOLS ->
  table !! m = Some a ->
  exists (o : offsets) (e : entry),
    fst (dump_offsets w path no_output) = Returned o /\
    reference_offset o = Py.hex r /\
    dict_get (symbols o) l = Some (Some e) /\
    mangled e = m /\
    offset e = Py.hex a /\
    relative e = Py.hex (a - r) /\
    Py.int16 (relative e) = Some (a - r) /\
    (forall d : Z, Py.hex d = relative e -> d = a - r).
Proof.
  intros Hrc Hparse Href Hin Hm.
  pose proof (dump_offsets_for_report INTERNAL_SYMBOLS w path table r no_output
                Hrc Hparse Href) as Hrun.
  eexists. eexists. unfold dump_offsets. rewrite Hrun.
  cbn [fst]. split; [reflexivity |]. cbn [symbols reference_offset].
  split; [reflexivity |]. split.
  - rewrite (resolve_all_lookup table r INTERNAL_SYMBOLS [] m l internal_labels_nodup Hin).
    unfold entry_of. rewrite Hm. reflexivity.
  - cbn [mangled offset relative]. repeat split; try reflexivity.
    + apply int16_hex.
    + intros d Hd. apply hex_inj. exact Hd.
Qed.

Lemma scenario_dump_macos_table : parse_nm_output scenario_dump_macos = Returned scenario_table.
Proof. reflexivity. Qed.

(** C1, as amended.  With the names as [nm] prints them on macOS, one
    underscore more in front of each, the end-to-end scenario gives the
    expected report: reference offset [0x1000], and for the one target the
    entry with its mangled name, offset [0x2000] and relative offset
    [0x1000].  With the names as the specification writes them, a single
    underscore in front, the stripped names do not match
    [REFERENCE_SYMBOL], and [dump_offsets] ends in [sys.exit(1)] after the
    line that says so. *)
Theorem scenario_report w (path : string) st :
  returncode (subprocess_run w ["nm"; path]) = 0 ->
  (stdout (subprocess_run w ["nm"; path]) = scenario_dump_macos ->
   dump_offsets_for scenario_targets w path st
   = (Returned {| version := get_lldb_version w path;
                  reference_symbol := REFERENCE_SYMBOL;
                  reference_offset := "0x1000";
                  symbols := [("TypeCategoryImpl::AddTypeSummary",
                               Some {| mangled := AddTypeSummary;
                                       offset := "0x2000";
                                       relative := "0x1000" |})] |},
      st)) /\
  (stdout (subprocess_run w ["nm"; path]) = scenario_dump ->
   dump_offsets_for scenario_targets w path st
   = (Exited 1,
      with_stderr st
        ("Reference symbol _ZN4lldb10SBDebugger10InitializeEv not found!" ++ newline))).
Proof.
  intros Hrc. split; intros Hout; rewrite dump_offsets_for_spec; cbv zeta;
    rewrite Hrc, Hout.
  - rewrite scenario_dump_macos_table.
    replace (scenario_table !! REFERENCE_SYMBOL) with (Some 4096) by (vm_compute; reflexivity).
    replace (warnings scenario_table scenario_targets) with "" by (vm_compute; reflexivity).
    replace (resolve_all scenario_table 4096 scenario_targets [])
      with [("TypeCategoryImpl::AddTypeSummary",
             Some {| mangled := AddTypeSummary; offset := "0x2000"; relative := "0x1000" |})]
      by (vm_compute; reflexivity).
    rewrite with_stderr_empty. reflexivity.
  - replace (parse_nm_output scenario_dump) with (Returned stripped_table)
      by reflexivity.
    replace (stripped_table !! REFERENCE_SYMBOL) with (@None Z) by (vm_compute; reflexivity).
    reflexivity.
Qed.

End Resolver.

(** C1, as the specification writes the scenario: there is no report with
    reference offset [0x1000] and the expected entry, because there is no
    report at all. *)
Lemma scenario_as_written_has_no_report :
  ~ exists (o : offsets) (st : streams),
      dump_offsets_for scenario_targets (world_with_nm scenario_dump) example_path no_output
      = (Returned o, st) /\
      reference_offset o = "0x1000" /\
      dict_get (symbols o) "TypeCategoryImpl::AddTypeSummary"
      = Some (Some {| mangled := AddTypeSummary; offset := "0x2000"; relative := "0x1000" |}).
Proof.
  intros (o & st & Hrun & _).
  assert (Hexit : fst (dump_offsets_for scenario_targets (world_with_nm scenario_dump)
                         example_path no_output) = Exited 1)
    by (vm_compute; reflexivity).
  rewrite Hrun in Hexit. discriminate Hexit.
Qed.

(** ** The theorems at concrete runs *)

Lemma scenario_report_witness :
  dump_offsets_for scenario_targets (world_with_nm scenario_dump_macos) example_path no_output
  = (Returned {| version := "unknown";
                 reference_symbol := REFERENCE_SYMBOL;
                 reference_offset := "0x1000";
                 symbols := [("TypeCategoryImpl::AddTypeSummary",
                              Some {| mangled := AddTypeSummary;
                                      offset := "0x2000";
                                      relative := "0x1000" |})] |},
     no_output) /\
  dump_offsets_for scenario_targets (world_with_nm scenario_dump) example_path no_output
  = (Exited 1,
     with_stderr no_output
       ("Reference symbol _ZN4lldb10SBDebugger10InitializeEv not found!" ++ newline)).
Proof.
  split.
  - apply (proj1 (scenario_report (world_with_nm scenario_dump_macos) example_path
                    no_output eq_refl)).
    reflexivity.
  - apply (proj2 (scenario_report (world_with_nm scenario_dump) example_path
                    no_output eq_refl)).
    reflexivity.
Defined.

Lemma strip_one_leading_underscore_witness :
  strip_underscore "Foo_" = "Foo_" /\
  exists table' : gmap string Z,
    parse_line ∅ "1000 T _Foo" = Returned table' /\
    table' !! "Foo" = Some 4096 /\
    forall k, k <> "Foo" -> table' !! k = (∅ : gmap string Z) !! k.
Proof.
  split.
  - apply (proj1 (proj2 strip_one_leading_underscore) "Foo_"). reflexivity.
  - apply (proj2 (proj2 (proj2 (proj2 strip_one_leading_underscore)))
             ∅ "1000 T _Foo" "1000" "T" "_Foo" [] 4096).
    + reflexivity.
    + reflexivity.
Defined.

Lemma found_target_relative_offset_witness :
  exists (o : offsets) (e : entry),
    fst (dump_offsets (world_with_nm reversed_dump) example_path no_output) = Returned o /\
    reference_offset o = Py.hex 8192 /\
    dict_get (symbols o) "TypeCategoryImpl::AddTypeSummary" = Some (Some e) /\
    mangled e = AddTypeSummary /\
    offset e = Py.hex 4096 /\
    relative e = Py.hex (4096 - 8192) /\
    Py.int16 (relative e) = Some (4096 - 8192) /\
    (forall d : Z, Py.hex d = relative e -> d = 4096 - 8192).
Proof.
  apply (found_target_relative_offset (world_with_nm reversed_dump) example_path
           reversed_table 8192 4096 AddTypeSummary "TypeCategoryImpl::AddTypeSummary").
  - reflexivity.
  - reflexivity.
  - vm_compute. reflexivity.
  - unfold INTERNAL_SYMBOLS. cbn [In]. right. right. left. reflexivity.
  - vm_compute. reflexivity.
Defined.

Lemma missing_reference_is_fatal_witness :
  run (world_with_nm scenario_dump) example_argv
  = {| exit_status := 1;
       out := "";
       err := "Reference symbol _ZN4lldb10SBDebugger10InitializeEv not found!" ++ newline;
       uncaught := None |}.
Proof.
  apply (missing_reference_is_fatal INTERNAL_SYMBOLS (world_with_nm scenario_dump)
           "dump_offsets.py" example_path [] stripped_table).
  - reflexivity.
  - reflexivity.
  - vm_compute. reflexivity.
Defined.

Lemma nm_failure_is_fatal_witness :
  run (world_nm_fails 1 "nm: error: liblldb.dylib: No such file or directory.")
      example_argv
  = {| exit_status := 1;
       out := "";
       err := "nm failed: nm: error: liblldb.dylib: No such file or directory." ++ newline;
       uncaught := None |}.
Proof.
  apply (nm_failure_is_fatal INTERNAL_SYMBOLS
           (world_nm_fails 1 "nm: error: liblldb.dylib: No such file or directory.")
           "dump_offsets.py" example_path []).
  vm_compute. discriminate.
Defined.


Lemma last_occurrence_wins_witness :
  exists table : gmap string Z,
    parse_nm_output duplicate_dump = Returned table /\ table !! "twice" = Some 12288.
Proof.
  eexists. split; [reflexivity |].
  apply (last_occurrence_wins duplicate_dump ["1000 T _twice"] ["2000 T _once"]
           "3000 t _twice" _ 12288).
  - reflexivity.
  - reflexivity.
  - reflexivity.
  - intros l [<- | []] _. vm_compute. discriminate.
  - reflexivity.
Defined.

Lemma bad_address_raises_witness :
  (exists table, parse_nm_output scenario_dump_macos = Returned table) /\
  parse_nm_output arch_header = Raised ValueError.
Proof.
  split.
  - apply (proj1 (proj2 bad_address_raises) scenario_dump_macos).
    intros l Hin _. vm_compute in Hin.
    destruct Hin as [<- | [<- | []]]; vm_compute; discriminate.
  - apply (proj2 (proj2 bad_address_raises) arch_header arch_header).
    + vm_compute. left. reflexivity.
    + reflexivity.
    + reflexivity.
Defined.

(** ** Further properties of the loader *)

Section LoaderFacts.

Implicit Types (table : gmap string Z) (line : string) (lines : list string).

(** A key that is in the table stays in the table. *)
Lemma parse_lines_keeps_keys lines : forall table table' k,
  parse_lines lines table = Returned table' ->
  is_Some (table !! k) -> is_Some (table' !! k).
Proof.
  induction lines as [| l lines IH]; intros table table' k Hrun Hk; cbn [parse_lines] in Hrun.
  - congruence.
  - destruct (qualifies l) eqn:Hq.
    + rewrite (parse_line_long _ _ Hq) in Hrun.
      destruct (Py.int16 (line_addr l)) as [a |]; [| discriminate].
      apply (IH _ _ k Hrun). rewrite lookup_insert. case_decide; [eauto | exact Hk].
    + rewrite (parse_line_short _ _ Hq) in Hrun. apply (IH _ _ k Hrun Hk).
Qed.

(** Where a binding of the table comes from. *)
Lemma parse_lines_sound lines : forall table table' k (a : Z),
  parse_lines lines table = Returned table' ->
  table' !! k = Some a ->
  table !! k = Some a \/
  exists l, In l lines /\ qualifies l = true /\ line_key l = k /\
            Py.int16 (line_addr l) = Some a.
Proof.
  induction lines as [| l lines IH]; intros table table' k a Hrun Hk; cbn [parse_lines] in Hrun.
  - left. congruence.
  - destruct (qualifies l) eqn:Hq.
    + rewrite (parse_line_long _ _ Hq) in Hrun.
      destruct (Py.int16 (line_addr l)) as [a0 |] eqn:Ha0; [| discriminate].
      destruct (IH _ _ k a Hrun Hk) as [Hin | (l' & Hin & Hq' & Hk' & Ha')].
      * rewrite lookup_insert in Hin. case_decide as Heq.
        -- right. exists l. repeat split; [left; reflexivity | assumption | assumption |].
           congruence.
        -- left. exact Hin.
      * right. exists l'. repeat split; [right; assumption | assumption ..].
    + rewrite (parse_line_short _ _ Hq) in Hrun.
      destruct (IH _ _ k a Hrun Hk) as [Hin | (l' & Hin & Hq' & Hk' & Ha')].
      * left. exact Hin.
      * right. exists l'. repeat split; [right; assumption | assumption ..].
Qed.

(** Every qualifying line leaves its key in the table. *)
Lemma parse_lines_complete lines : forall table table' l,
  parse_lines lines table = Returned table' ->
  In l lines -> qualifies l = true ->
  is_Some (table' !! line_key l).
Proof.
  induction lines as [| l0 lines IH]; intros table table' l Hrun Hin Hq; [destruct Hin |].
  cbn [parse_lines] in Hrun. destruct Hin as [-> | Hin].
  - rewrite (parse_line_long _ _ Hq) in Hrun.
    destruct (Py.int16 (line_addr l)) as [a |]; [| discriminate].
    apply (parse_lines_keeps_keys _ _ _ _ Hrun). rewrite lookup_insert_eq. eauto.
  - destruct (parse_line table l0) as [table0 | |]; try discriminate.
    apply (IH _ _ l Hrun Hin Hq).
Qed.

(** X1. The keys of the table are exactly the stripped names of the
    qualifying lines of the dump, and the address under a key is the
    address that one of the lines with that name carries. *)
Theorem table_holds_the_lines_of_the_dump (text : string) table :
  parse_nm_output text = Returned table ->
  (forall k (a : Z),
      table !! k = Some a ->
      exists l, In l (Py.splitlines text) /\ qualifies l = true /\
                line_key l = k /\ Py.int16 (line_addr l) = Some a) /\
  (forall l, In l (Py.splitlines text) -> qualifies l = true ->
             exists a : Z, table !! line_key l = Some a).
Proof.
  intros Hrun. split.
  - intros k a Hk.
    destruct (parse_lines_sound _ _ _ k a Hrun Hk) as [Hempty | Hl]; [| exact Hl].
    rewrite lookup_empty in Hempty. discriminate.
  - intros l Hin Hq. exact (parse_lines_complete _ _ _ l Hrun Hin Hq).
Qed.

(** Lines that do not qualify leave the table as it is. *)
Lemma parse_lines_all_short lines table :
  (forall l, In l lines -> qualifies l = false) ->
  parse_lines lines table = Returned table.
Proof.
  induction lines as [| l lines IH]; intros Hshort; [reflexivity |].
  cbn [parse_lines]. rewrite (parse_line_short _ _ (Hshort l (or_introl eq_refl))).
  apply IH. intros l' Hin. apply Hshort. right. exact Hin.
Qed.

(** Two neighbours with different keys can change places. *)
Lemma parse_line_swap table (x y : string) :
  (qualifies x = true -> qualifies y = true -> line_key x <> line_key y) ->
  parse_lines [x; y] table = parse_lines [y; x] table.
Proof.
  intros Hne. cbn [parse_lines].
  destruct (qualifies x) eqn:Hx, (qualifies y) eqn:Hy.
  - rewrite (parse_line_long table x Hx), (parse_line_long table y Hy).
    destruct (Py.int16 (line_addr x)) as [a |] eqn:Ha,
             (Py.int16 (line_addr y)) as [b |] eqn:Hb.
    + rewrite (parse_line_long _ y Hy), (parse_line_long _ x Hx), Ha, Hb.
      f_equal. apply insert_insert_ne. intros Heq. apply (Hne eq_refl eq_refl). congruence.
    + rewrite (parse_line_long _ y Hy), Hb. reflexivity.
    + rewrite (parse_line_long _ x Hx), Ha. reflexivity.
    + reflexivity.
  - rewrite (parse_line_short table y Hy).
    destruct (parse_line table x) as [t | |]; [| reflexivity ..].
    rewrite (parse_line_short t y Hy). reflexivity.
  - rewrite (parse_line_short table x Hx).
    destruct (parse_line table y) as [t | |]; [| reflexivity ..].
    rewrite (parse_line_short t x Hx). reflexivity.
  - rewrite (parse_line_short table x Hx), (parse_line_short table y Hy),
      (parse_line_short table x Hx). reflexivity.
Qed.

Lemma stored_keys_cons (x : string) lines :
  stored_keys (x :: lines)
  = if qualifies x then line_key x :: stored_keys lines else stored_keys lines.
Proof. unfold stored_keys. cbn [List.filter]. destruct (qualifies x); reflexivity. Qed.

Lemma stored_keys_perm lines lines' :
  Permutation lines lines' -> Permutation (stored_keys lines) (stored_keys lines').
Proof.
  induction 1 as [| x l l' _ IH | x y l | l l' l'' _ IH1 _ IH2].
  - constructor.
  - rewrite !stored_keys_cons. destruct (qualifies x); [constructor |]; exact IH.
  - rewrite !stored_keys_cons. destruct (qualifies x), (qualifies y);
      try reflexivity. apply perm_swap.
  - etransitivity; eassumption.
Qed.

(** X2. When no two qualifying lines store the same key, the order of the
    lines of the dump does not matter: every permutation of the lines gives
    the same table, or the same exception. *)
Theorem order_of_lines_is_irrelevant lines lines' :
  Permutation lines lines' ->
  List.NoDup (stored_keys lines) ->
  forall table, parse_lines lines table = parse_lines lines' table.
Proof.
  induction 1 as [| x l l' Hperm IH | x y l | l l' l'' Hperm1 IH1 Hperm2 IH2];
    intros Hnd table.
  - reflexivity.
  - cbn [parse_lines]. destruct (parse_line table x) as [t | |]; [| reflexivity ..].
    apply IH. rewrite stored_keys_cons in Hnd.
    destruct (qualifies x); [apply List.NoDup_cons_iff in Hnd; tauto | exact Hnd].
  - change (y :: x :: l) with ([y; x] ++ l)%list.
    change (x :: y :: l) with ([x; y] ++ l)%list.
    rewrite !parse_lines_app. rewrite (parse_line_swap table y x); [reflexivity |].
    intros Hy Hx Heq. rewrite !stored_keys_cons, Hy, Hx in Hnd.
    apply List.NoDup_cons_iff in Hnd as [Hfresh _]. apply Hfresh. left. congruence.
  - rewrite (IH1 Hnd). apply IH2.
    apply (Permutation_NoDup (stored_keys_perm _ _ Hperm1) Hnd).
Qed.

(** X3. A dump without a single qualifying line, the empty dump among
    them, gives the empty table, and the run ends like every run without
    the reference symbol: status 1, one line on the error stream, nothing
    on standard output. *)
Theorem dump_without_symbols_is_fatal targets w (prog path : string) (more : list string) :
  returncode (subprocess_run w ["nm"; path]) = 0 ->
  (forall l, In l (Py.splitlines (stdout (subprocess_run w ["nm"; path]))) ->
             (length (Py.split l) < 3)%nat) ->
  parse_nm_output (stdout (subprocess_run w ["nm"; path])) = Returned ∅ /\
  run_for targets w (prog :: path :: more)
  = {| exit_status := 1;
       out := "";
       err := "Reference symbol _ZN4lldb10SBDebugger10InitializeEv not found!" ++ newline;
       uncaught := None |}.
Proof.
  intros Hrc Hshort.
  assert (Hparse : parse_nm_output (stdout (subprocess_run w ["nm"; path])) = Returned ∅).
  { apply parse_lines_all_short. intros l Hin. unfold qualifies.
    apply Nat.leb_gt. apply Hshort. exact Hin. }
  split; [exact Hparse |].
  rewrite run_for_spec, dump_offsets_for_spec. cbv zeta.
  rewrite Hrc, Hparse, lookup_empty. reflexivity.
Qed.

(** X4. One qualifying line whose first token is no numeral of base 16 is
    enough to end the whole run in an uncaught [ValueError]: status 1,
    nothing on standard output, and no line of the script on the error
    stream, whether the dump lists the reference symbol or not. *)
Theorem bad_address_ends_the_run targets w (prog path : string) (more : list string)
    (l : string) :
  returncode (subprocess_run w ["nm"; path]) = 0 ->
  In l (Py.splitlines (stdout (subprocess_run w ["nm"; path]))) ->
  (3 <= length (Py.split l))%nat ->
  Py.int16 (nth 0 (Py.split l) "") = None ->
  run_for targets w (prog :: path :: more)
  = {| exit_status := 1; out := ""; err := ""; uncaught := Some ValueError |}.
Proof.
  intros Hrc Hin Hq Ha.
  assert (Hparse : parse_nm_output (stdout (subprocess_run w ["nm"; path]))
                   = Raised ValueError).
  { apply (parse_lines_raises _ _ l Hin); [| exact Ha].
    unfold qualifies. apply Nat.leb_le. exact Hq. }
  rewrite run_for_spec, dump_offsets_for_spec. cbv zeta.
  rewrite Hrc, Hparse. reflexivity.
Qed.

End LoaderFacts.

(** ** Further properties of the report *)

Section ReportFacts.

Implicit Types (table : gmap string Z) (targets : list (string * string))
  (syms : list (string * option entry)) (st : streams) (w : World).

(** A new key goes to the end of the dictionary. *)
Lemma dict_set_new {V} (d : list (string * V)) (k : string) (v : V) :
  ~ In k (map fst d) -> dict_set d k v = (d ++ [(k, v)])%list.
Proof.
  induction d as [| [k0 v0] d IH]; intros Hnew; [reflexivity |].
  cbn [dict_set app]. cbn [map fst In] in Hnew.
  destruct (String.eqb_spec k0 k); [tauto |]. rewrite IH by tauto. reflexivity.
Qed.

(** With labels that are all different and all new, the loop appends one
    entry for each target. *)
Lemma resolve_all_fresh table (r : Z) targets : forall syms,
  List.NoDup (map snd targets) ->
  (forall l, In l (map snd targets) -> ~ In l (map fst syms)) ->
  resolve_all table r targets syms
  = (syms ++ map (fun t => (snd t, entry_of table r (fst t))) targets)%list.
Proof.
  induction targets as [| [m l] targets IH]; intros syms Hnd Hnew.
  - cbn. rewrite app_nil_r. reflexivity.
  - cbn [map snd] in Hnd. apply List.NoDup_cons_iff in Hnd as [Hl Hnd].
    change (resolve_all table r ((m, l) :: targets) syms)
      with (resolve_all table r targets (dict_set syms l (entry_of table r m))).
    rewrite dict_set_new by (apply Hnew; left; reflexivity).
    rewrite IH; [cbn [map fst snd]; rewrite <- app_assoc; reflexivity | exact Hnd |].
    intros l' Hin'. rewrite map_app, in_app_iff. cbn [map fst In].
    intros [Hold | [<- | []]]; [| exact (Hl Hin')].
    apply (Hnew l'); [right; exact Hin' | exact Hold].
Qed.

Lemma resolve_all_app table (r : Z) targets1 targets2 syms :
  resolve_all table r (targets1 ++ targets2) syms
  = resolve_all table r targets2 (resolve_all table r targets1 syms).
Proof. unfold resolve_all. apply fold_left_app. Qed.

(** X5. For targets with labels that are all different, the ["symbols"]
    dictionary of the report has exactly one entry for each target, in the
    order of the target list: the label, and under it [None] or the three
    fields of a found symbol. *)
Theorem report_lists_every_target_in_order targets w (path : string) table (r : Z) :
  returncode (subprocess_run w ["nm"; path]) = 0 ->
  parse_nm_output (stdout (subprocess_run w ["nm"; path])) = Returned table ->
  table !! REFERENCE_SYMBOL = Some r ->
  List.NoDup (map snd targets) ->
  exists o : offsets,
    fst (dump_offsets_for targets w path no_output) = Returned o /\
    reference_symbol o = REFERENCE_SYMBOL /\
    symbols o
    = map (fun t =>
             (snd t,
              match table !! fst t with
              | Some a => Some {| mangled := fst t;
                                  offset := Py.hex a;
                                  relative := Py.hex (a - r) |}
              | None => None
              end)) targets.
Proof.
  intros Hrc Hparse Href Hnd. eexists.
  rewrite (dump_offsets_for_report targets w path table r no_output Hrc Hparse Href).
  cbn [fst]. split; [reflexivity |]. cbn [reference_symbol symbols].
  split; [reflexivity |].
  rewrite resolve_all_fresh; [reflexivity | exact Hnd | intros l _ []].
Qed.

(** X6. When several targets share a label, the report keeps under that
    label the entry of the last of them. *)
Theorem last_target_of_a_label_wins (pre post : list (string * string)) w (path : string)
    table (r : Z) (m l : string) :
  returncode (subprocess_run w ["nm"; path]) = 0 ->
  parse_nm_output (stdout (subprocess_run w ["nm"; path])) = Returned table ->
  table !! REFERENCE_SYMBOL = Some r ->
  ~ In l (map snd post) ->
  exists o : offsets,
    fst (dump_offsets_for (pre ++ (m, l) :: post) w path no_output) = Returned o /\
    dict_get (symbols o) l = Some (entry_of table r m).
Proof.
  intros Hrc Hparse Href Hpost. eexists.
  rewrite (dump_offsets_for_report _ w path table r no_output Hrc Hparse Href).
  cbn [fst]. split; [reflexivity |]. cbn [symbols].
  rewrite resolve_all_app.
  change (resolve_all table r ((m, l) :: post) ?s)
    with (resolve_all table r post (dict_set s l (entry_of table r m))).
  rewrite resolve_all_other by exact Hpost.
  rewrite dict_get_set, String.eqb_refl. reflexivity.
Qed.



Lemma hex_starts_with_minus (n : Z) : starts_with_minus (Py.hex n) = (n <? 0).
Proof. unfold Py.hex. destruct (n <? 0); reflexivity. Qed.

(** X8. The three offsets of a found target fit together: read back in
    base 16, the reference offset is the address of the reference symbol,
    the offset of the target is its address, and reference offset plus
    relative offset is the offset of the target.  The relative offset
    starts with a minus sign exactly when the target lies below the
    reference symbol. *)
Theorem offsets_of_a_target_add_up (pre post : list (string * string)) w (path : string)
    table (r a : Z) (m l : string) :
  returncode (subprocess_run w ["nm"; path]) = 0 ->
  parse_nm_output (stdout (subprocess_run w ["nm"; path])) = Returned table ->
  table !! REFERENCE_SYMBOL = Some r ->
  table !! m = Some a ->
  ~ In l (map snd post) ->
  exists (o : offsets) (e : entry) (d : Z),
    fst (dump_offsets_for (pre ++ (m, l) :: post) w path no_output) = Returned o /\
    dict_get (symbols o) l = Some (Some e) /\
    Py.int16 (reference_offset o) = Some r /\
    Py.int16 (offset e) = Some a /\
    Py.int16 (relative e) = Some d /\
    r + d = a /\
    (starts_with_minus (relative e) = true <-> a < r).
Proof.
  intros Hrc Hparse Href Hm Hpost. eexists. eexists. exists (a - r).
  rewrite (dump_offsets_for_report _ w path table r no_output Hrc Hparse Href).
  cbn [fst]. split; [reflexivity |]. cbn [symbols reference_offset]. split.
  - rewrite resolve_all_app.
    change (resolve_all table r ((m, l) :: post) ?s)
      with (resolve_all table r post (dict_set s l (entry_of table r m))).
    rewrite resolve_all_other by exact Hpost.
    rewrite dict_get_set, String.eqb_refl. unfold entry_of. rewrite Hm. reflexivity.
  - cbn [offset relative]. rewrite !int16_hex, hex_starts_with_minus.
    repeat split; lia.
Qed.

(** The loader never calls [sys.exit]. *)
Lemma parse_lines_never_exits (lines : list string) : forall table (c : Z),
  parse_lines lines table <> Exited c.
Proof.
  induction lines as [| l lines IH]; intros table c; cbn [parse_lines]; [discriminate |].
  unfold parse_line. destruct (3 <=? length (Py.split l))%nat; [| apply IH].
  destruct (Py.int16 (nth 0 (Py.split l) "")); [apply IH | discriminate].
Qed.

Lemma report_text_not_empty (o : offsets) (s : string) :
  s ++ Json.dumps (offsets_json o) ++ newline <> "".
Proof. destruct s; intros H; discriminate H. Qed.

Lemma run_for_usage targets w (prog : string) :
  run_for targets w [prog]
  = {| exit_status := 1;
       out := "";
       err := "Usage: " ++ prog ++ " /path/to/liblldb.dylib" ++ newline;
       uncaught := None |}.
Proof.
  unfold run_for, main_for, bind, print_stderr, sys_exit.
  cbn [length Nat.ltb Nat.leb sys_stdout sys_stderr exit_status].
  rewrite !append_assoc. reflexivity.
Qed.

(** X9. Whatever the world and the command line, the process ends with
    status 0 or 1, and it writes to standard output exactly when the
    status is 0: a run that fails leaves no partial report behind.  A run
    that ends with status 0 has raised nothing. *)
Theorem report_or_failure targets w (argv : list string) :
  (exit_status (run_for targets w argv) = 0 \/ exit_status (run_for targets w argv) = 1) /\
  (exit_status (run_for targets w argv) = 0 <-> out (run_for targets w argv) <> "") /\
  (exit_status (run_for targets w argv) = 0 -> uncaught (run_for targets w argv) = None).
Proof.
  assert (Hfail : forall p : process,
             exit_status p = 1 -> out p = "" ->
             (exit_status p = 0 \/ exit_status p = 1) /\
             (exit_status p = 0 <-> out p <> "") /\
             (exit_status p = 0 -> uncaught p = None)).
  { intros p Hs Ho. rewrite Hs, Ho. split; [right; reflexivity |].
    split; [split; [discriminate | intros H; exfalso; apply H; reflexivity] | discriminate]. }
  destruct argv as [| prog [| path more]].
  - apply Hfail; reflexivity.
  - rewrite run_for_usage. apply Hfail; reflexivity.
  - rewrite run_for_spec, dump_offsets_for_spec. cbv zeta.
    destruct (returncode (subprocess_run w ["nm"; path]) =? 0); [| apply Hfail; reflexivity].
    destruct (parse_nm_output (stdout (subprocess_run w ["nm"; path])))
      as [table | c | e] eqn:Hparse.
    + destruct (table !! REFERENCE_SYMBOL) as [r |]; [| apply Hfail; reflexivity].
      cbn [exit_status out uncaught]. split; [left; reflexivity |].
      split; [| reflexivity].
      split; [intros _; apply report_text_not_empty | reflexivity].
    + exfalso. eapply parse_lines_never_exits. exact Hparse.
    + apply Hfail; reflexivity.
Qed.

(** X10. Without a library path the run prints the usage line with the
    name of the program and ends with status 1, whatever the world.  With
    a library path, neither the name of the program nor any further
    argument has an influence on the run. *)
Theorem command_line_is_one_path targets w (prog : string) :
  run_for targets w [prog]
  = {| exit_status := 1;
       out := "";
       err := "Usage: " ++ prog ++ " /path/to/liblldb.dylib" ++ newline;
       uncaught := None |} /\
  forall (prog' path : string) (more : list string),
    run_for targets w (prog :: path :: more) = run_for targets w [prog'; path].
Proof.
  split; [apply run_for_usage |].
  intros prog' path more. rewrite !run_for_spec. reflexivity.
Qed.

End ReportFacts.

(** ** Further properties of the version *)

Section VersionFacts.

Lemma digits_run_spec (s : string) :
  s = fst (Re.digits_run s) ++ snd (Re.digits_run s) /\
  all_digits (fst (Re.digits_run s)) = true.
Proof.
  induction s as [| c s [IHeq IHd]]; [split; reflexivity |].
  cbn [Re.digits_run]. destruct (Re.isdigit c) eqn:Hc; [| split; reflexivity].
  destruct (Re.digits_run s) as [d r]. cbn [fst snd] in *. split.
  - change (String c s = String c (d ++ r)). f_equal. exact IHeq.
  - cbn [all_digits]. rewrite Hc. exact IHd.
Qed.

Lemma digits1_spec (s d r : string) :
  Re.digits1 s = Some (d, r) -> s = d ++ r /\ is_number d = true.
Proof.
  unfold Re.digits1. pose proof (digits_run_spec s) as [Heq Hd].
  destruct (Re.digits_run s) as [d0 r0]. cbn [fst snd] in *.
  destruct d0 as [| c d0]; [discriminate |].
  intros H. injection H as <- <-. split; [exact Heq | exact Hd].
Qed.

Lemma literal_spec (lit : string) : forall s r : string,
  Re.literal lit s = Some r -> s = lit ++ r.
Proof.
  induction lit as [| a lit IH]; intros s r; cbn [Re.literal].
  - intros H. injection H as ->. reflexivity.
  - destruct s as [| b s]; [discriminate |].
    destruct (Ascii.eqb_spec a b) as [-> | _]; [| discriminate].
    intros H. rewrite (IH _ _ H). reflexivity.
Qed.

Lemma triple_spec (s v r : string) :
  Re.triple s = Some (v, r) -> is_version_triple v /\ s = v ++ r.
Proof.
  unfold Re.triple.
  destruct (Re.digits1 s) as [[a r1] |] eqn:H1; [| discriminate].
  destruct (Re.literal "." r1) as [r2 |] eqn:H2; [| discriminate].
  destruct (Re.digits1 r2) as [[b r3] |] eqn:H3; [| discriminate].
  destruct (Re.literal "." r3) as [r4 |] eqn:H4; [| discriminate].
  destruct (Re.digits1 r4) as [[c r5] |] eqn:H5; [| discriminate].
  intros H. injection H as <- <-.
  apply digits1_spec in H1 as [-> Ha], H3 as [-> Hb], H5 as [-> Hc].
  apply literal_spec in H2 as ->, H4 as ->.
  split; [exists a, b, c; repeat split; assumption |].
  rewrite !append_assoc. reflexivity.
Qed.

Lemma search_spec (at_start : string -> option string) (s v : string) :
  Re.search at_start s = Some v ->
  exists pre suf : string, s = pre ++ suf /\ at_start suf = Some v.
Proof.
  induction s as [| c s IH]; cbn [Re.search].
  - destruct (at_start "") as [v0 |] eqn:H0; [| discriminate].
    intros H. injection H as ->. exists "", "". split; [reflexivity | exact H0].
  - destruct (at_start (String c s)) as [v0 |] eqn:H0.
    + intros H. injection H as ->. exists "", (String c s). split; [reflexivity | exact H0].
    + intros H. destruct (IH H) as (pre & suf & -> & Hsuf).
      exists (String c pre), suf. split; [reflexivity | exact Hsuf].
Qed.

Lemma version_at_spec (s v : string) :
  Re.search Re.version_at s = Some v ->
  is_version_triple v /\ exists pre post : string, s = pre ++ "version " ++ v ++ post.
Proof.
  intros H. destruct (search_spec _ _ _ H) as (pre & suf & -> & Hat).
  unfold Re.version_at in Hat.
  destruct (Re.literal "version " suf) as [r |] eqn:Hlit; [| discriminate].
  destruct (Re.triple r) as [[v0 post] |] eqn:Htr; [| discriminate].
  injection Hat as ->. apply triple_spec in Htr as [Hv ->].
  apply literal_spec in Hlit as ->. split; [exact Hv |]. exists pre, post. reflexivity.
Qed.

Lemma libname_at_spec (s v : string) :
  Re.search Re.libname_at s = Some v ->
  is_version_triple v /\
  exists pre post : string, s = pre ++ "liblldb." ++ v ++ ".dylib" ++ post.
Proof.
  intros H. destruct (search_spec _ _ _ H) as (pre & suf & -> & Hat).
  unfold Re.libname_at in Hat.
  destruct (Re.literal "liblldb." suf) as [r |] eqn:Hlit; [| discriminate].
  destruct (Re.triple r) as [[v0 r'] |] eqn:Htr; [| discriminate].
  destruct (Re.literal ".dylib" r') as [post |] eqn:Hext; [| discriminate].
  injection Hat as ->. apply triple_spec in Htr as [Hv ->].
  apply literal_spec in Hlit as ->. apply literal_spec in Hext as ->.
  split; [exact Hv |]. exists pre, post. reflexivity.
Qed.

(** X11. The version is always ["unknown"] or a triple [X.Y.Z] of decimal
    numbers, and a triple is never made up: it stands after [version ] in
    what an existing [lldb] printed, or between [liblldb.] and [.dylib] in
    the path of the library.  What [lldb] prints wins over the path. *)
Theorem version_is_found_not_invented (w : World) (path : string) :
  (get_lldb_version w path = "unknown" \/
   is_version_triple (get_lldb_version w path) /\
   ((path_exists w (lldb_bin path) = true /\
     exists pre post : string,
       stdout (subprocess_run w [lldb_bin path; "--version"])
       = pre ++ "version " ++ get_lldb_version w path ++ post) \/
    exists pre post : string,
      path = pre ++ "liblldb." ++ get_lldb_version w path ++ ".dylib" ++ post)) /\
  (forall v : string,
      path_exists w (lldb_bin path) = true ->
      Re.search Re.version_at (stdout (subprocess_run w [lldb_bin path; "--version"]))
      = Some v ->
      get_lldb_version w path = v).
Proof.
  unfold get_lldb_version. fold (lldb_bin path). split.
  - destruct (path_exists w (lldb_bin path)) eqn:Hex.
    + destruct (Re.search Re.version_at
                  (stdout (subprocess_run w [lldb_bin path; "--version"])))
        as [v |] eqn:Hv.
      * right. destruct (version_at_spec _ _ Hv) as [Htriple Hsrc].
        split; [exact Htriple |]. left. split; [reflexivity | exact Hsrc].
      * destruct (Re.search Re.libname_at path) as [v |] eqn:Hn; [| left; reflexivity].
        right. destruct (libname_at_spec _ _ Hn) as [Htriple Hsrc].
        split; [exact Htriple | right; exact Hsrc].
    + destruct (Re.search Re.libname_at path) as [v |] eqn:Hn; [| left; reflexivity].
      right. destruct (libname_at_spec _ _ Hn) as [Htriple Hsrc].
      split; [exact Htriple | right; exact Hsrc].
  - intros v Hex Hv. rewrite Hex, Hv. reflexivity.
Qed.

Lemma upto_last_slash_dir (dir file : string) :
  OsPath.has_slash file = false ->
  OsPath.upto_last_slash (dir ++ "/" ++ file) = dir ++ "/".
Proof.
  intros Hfile. induction dir as [| c dir IH].
  - change ("" ++ "/" ++ file) with (String "/" file).
    cbn [OsPath.upto_last_slash]. rewrite Hfile. reflexivity.
  - change (String c dir ++ "/" ++ file) with (String c (dir ++ "/" ++ file)).
    cbn [OsPath.upto_last_slash].
    replace (OsPath.has_slash (dir ++ "/" ++ file)) with true.
    + rewrite IH. reflexivity.
    + clear IH. induction dir as [| c' dir IH']; [reflexivity |].
      change (String c' dir ++ "/" ++ file) with (String c' (dir ++ "/" ++ file)).
      cbn [OsPath.has_slash]. rewrite <- IH'. apply eq_sym, orb_true_r.
Qed.

Lemma upto_last_slash_bare (file : string) :
  OsPath.has_slash file = false -> OsPath.upto_last_slash file = "".
Proof.
  destruct file as [| c file]; [reflexivity |].
  cbn [OsPath.has_slash OsPath.upto_last_slash].
  intros H. apply orb_false_elim in H as [-> ->]. reflexivity.
Qed.

Lemma rstrip_slash_dir (dir : string) :
  dir <> "" -> OsPath.endswith_slash dir = false ->
  OsPath.rstrip_slash (dir ++ "/") = dir /\ OsPath.all_slash (dir ++ "/") = false.
Proof.
  induction dir as [| c dir IH]; [congruence |]. intros _ Hend.
  change (String c dir ++ "/") with (String c (dir ++ "/")).
  cbn [OsPath.rstrip_slash OsPath.all_slash].
  destruct dir as [| c' dir].
  - cbn [OsPath.endswith_slash] in Hend.
    change ("" ++ "/") with "/". cbn. rewrite Hend. split; reflexivity.
  - assert (Hend' : OsPath.endswith_slash (String c' dir) = false) by exact Hend.
    destruct (IH ltac:(discriminate) Hend') as [-> ->].
    split; [reflexivity | apply andb_false_r].
Qed.

Lemma endswith_slash_app (a b : string) :
  b <> "" -> OsPath.endswith_slash (a ++ b) = OsPath.endswith_slash b.
Proof.
  intros Hb. induction a as [| c a IH]; [reflexivity |].
  change (String c a ++ b) with (String c (a ++ b)).
  cbn [OsPath.endswith_slash].
  destruct (a ++ b) eqn:Hab; [| exact IH].
  destruct a; [| discriminate Hab]. exfalso. apply Hb. exact Hab.
Qed.

Lemma join_step_plain (path b : string) :
  path <> "" -> OsPath.endswith_slash path = false ->
  OsPath.startswith_slash b = false ->
  OsPath.join_step path b = path ++ "/" ++ b.
Proof.
  intros Hne Hend Hb. unfold OsPath.join_step. rewrite Hb, Hend.
  destruct path; [congruence | reflexivity].
Qed.

(** X12. [lldb] is sought beside the library: for a library [dir/file],
    where [dir] is not empty and does not end with a slash and [file] has
    no slash, the path that is tried is [dir/../bin/lldb], whatever the
    name of the file; for a bare file name it is [../bin/lldb]. *)
Theorem lldb_is_sought_beside_the_library :
  (forall dir file : string,
      dir <> "" -> OsPath.endswith_slash dir = false ->
      OsPath.has_slash file = false ->
      lldb_bin (dir ++ "/" ++ file) = dir ++ "/../bin/lldb") /\
  (forall file : string,
      OsPath.has_slash file = false -> lldb_bin file = "../bin/lldb").
Proof.
  split.
  - intros dir file Hne Hend Hfile.
    destruct (rstrip_slash_dir dir Hne Hend) as [Hstrip Hall].
    assert (Hdir : OsPath.dirname (dir ++ "/" ++ file) = dir).
    { unfold OsPath.dirname. rewrite (upto_last_slash_dir dir file Hfile), Hall, Hstrip.
      destruct dir; [congruence | reflexivity]. }
    unfold lldb_bin. rewrite Hdir. unfold OsPath.join. cbn [fold_left].
    rewrite (join_step_plain dir ".." Hne Hend eq_refl).
    rewrite (join_step_plain (dir ++ "/" ++ "..") "bin").
    + rewrite (join_step_plain ((dir ++ "/" ++ "..") ++ "/" ++ "bin") "lldb").
      * rewrite !append_assoc. reflexivity.
      * destruct dir; discriminate.
      * rewrite append_assoc, endswith_slash_app by discriminate. reflexivity.
      * reflexivity.
    + destruct dir; discriminate.
    + rewrite endswith_slash_app by discriminate. reflexivity.
    + reflexivity.
  - intros file Hfile. unfold lldb_bin, OsPath.dirname.
    rewrite (upto_last_slash_bare file Hfile). reflexivity.
Qed.

Lemma digits_run_app (a s : string) :
  all_digits a = true -> starts_with_digit s = false ->
  Re.digits_run (a ++ s) = (a, s).
Proof.
  intros Ha Hs. induction a as [| c a IH].
  - destruct s as [| c s]; [reflexivity |]. cbn [starts_with_digit] in Hs.
    change ("" ++ String c s) with (String c s). cbn [Re.digits_run]. rewrite Hs. reflexivity.
  - cbn [all_digits] in Ha. apply andb_prop in Ha as [Hc Ha].
    change (String c a ++ s) with (String c (a ++ s)).
    cbn [Re.digits_run]. rewrite Hc, (IH Ha). reflexivity.
Qed.

Lemma digits1_app (a s : string) :
  is_number a = true -> starts_with_digit s = false ->
  Re.digits1 (a ++ s) = Some (a, s).
Proof.
  intros Ha Hs. destruct a as [| c a]; [discriminate |].
  unfold Re.digits1. rewrite (digits_run_app _ _ Ha Hs). reflexivity.
Qed.

Lemma digits1_some (a s : string) :
  is_number a = true -> exists d r : string, Re.digits1 (a ++ s) = Some (d, r).
Proof.
  intros Ha. destruct a as [| c a]; [discriminate |].
  cbn [is_number all_digits] in Ha. apply andb_prop in Ha as [Hc _].
  change (String c a ++ s) with (String c (a ++ s)).
  unfold Re.digits1. cbn [Re.digits_run]. rewrite Hc.
  destruct (Re.digits_run (a ++ s)) as [d r]. eauto.
Qed.

Lemma literal_app (lit s : string) : Re.literal lit (lit ++ s) = Some s.
Proof.
  induction lit as [| c lit IH]; [reflexivity |].
  change (String c lit ++ s) with (String c (lit ++ s)).
  cbn [Re.literal]. rewrite Ascii.eqb_refl. exact IH.
Qed.

Lemma triple_app (a b c s : string) :
  is_number a = true -> is_number b = true -> is_number c = true ->
  (exists v r : string, Re.triple (a ++ "." ++ b ++ "." ++ c ++ s) = Some (v, r)) /\
  (starts_with_digit s = false ->
   Re.triple (a ++ "." ++ b ++ "." ++ c ++ s) = Some (a ++ "." ++ b ++ "." ++ c, s)).
Proof.
  intros Ha Hb Hc. unfold Re.triple.
  rewrite (digits1_app a ("." ++ b ++ "." ++ c ++ s) Ha eq_refl), (literal_app "." _).
  rewrite (digits1_app b ("." ++ c ++ s) Hb eq_refl), (literal_app "." _).
  split.
  - destruct (digits1_some c s Hc) as (d & r & ->). eauto.
  - intros Hs. rewrite (digits1_app c s Hc Hs). reflexivity.
Qed.

Lemma search_some (at_start : string -> option string) (pre suf v : string) :
  at_start suf = Some v -> exists v', Re.search at_start (pre ++ suf) = Some v'.
Proof.
  intros Hsuf. induction pre as [| c pre IH].
  - change ("" ++ suf) with suf. destruct suf; cbn [Re.search]; rewrite Hsuf; eauto.
  - change (String c pre ++ suf) with (String c (pre ++ suf)). cbn [Re.search].
    destruct (at_start (String c (pre ++ suf))); eauto.
Qed.

Lemma search_after (at_start : string -> option string) (x : ascii) (pre suf : string) :
  (forall (c : ascii) (s : string), (x =? c)%char = false -> at_start (String c s) = None) ->
  has_char x pre = false ->
  Re.search at_start (pre ++ suf) = Re.search at_start suf.
Proof.
  intros Hx Hpre. induction pre as [| c pre IH]; [reflexivity |].
  cbn [has_char] in Hpre. apply orb_false_elim in Hpre as [Hc Hpre].
  change (String c pre ++ suf) with (String c (pre ++ suf)). cbn [Re.search].
  rewrite (Hx c _ Hc). exact (IH Hpre).
Qed.

Lemma search_here (at_start : string -> option string) (s v : string) :
  at_start s = Some v -> Re.search at_start s = Some v.
Proof. intros H. destruct s; cbn [Re.search]; rewrite H; reflexivity. Qed.

(** X13. A version that is there is found.  When no [lldb] stands beside
    the library and the path holds [liblldb.A.B.C.dylib], the version is a
    triple and never ["unknown"]; it is [A.B.C] when the path starts with
    that name.  When [lldb] prints a banner with [version A.B.C], with no
    letter [v] before it and no digit right after it, the version is
    [A.B.C]. *)
Theorem version_that_is_there_is_found (w : World) (a b c : string) :
  is_number a = true -> is_number b = true -> is_number c = true ->
  (forall dir post : string,
      path_exists w (lldb_bin (dir ++ "liblldb." ++ a ++ "." ++ b ++ "." ++ c ++ ".dylib" ++ post))
      = false ->
      is_version_triple
        (get_lldb_version w (dir ++ "liblldb." ++ a ++ "." ++ b ++ "." ++ c ++ ".dylib" ++ post)) /\
      (dir = "" ->
       get_lldb_version w (dir ++ "liblldb." ++ a ++ "." ++ b ++ "." ++ c ++ ".dylib" ++ post)
       = a ++ "." ++ b ++ "." ++ c)) /\
  (forall path pre post : string,
      path_exists w (lldb_bin path) = true ->
      stdout (subprocess_run w [lldb_bin path; "--version"])
      = pre ++ "version " ++ a ++ "." ++ b ++ "." ++ c ++ post ->
      has_char "v" pre = false ->
      starts_with_digit post = false ->
      get_lldb_version w path = a ++ "." ++ b ++ "." ++ c).
Proof.
  intros Ha Hb Hc. split.
  - intros dir post Hex.
    assert (Hat : Re.libname_at ("liblldb." ++ a ++ "." ++ b ++ "." ++ c ++ ".dylib" ++ post)
                  = Some (a ++ "." ++ b ++ "." ++ c)).
    { unfold Re.libname_at. rewrite literal_app.
      rewrite (proj2 (triple_app a b c (".dylib" ++ post) Ha Hb Hc) eq_refl).
      rewrite literal_app. reflexivity. }
    unfold lldb_bin in Hex. unfold get_lldb_version. rewrite Hex. split.
    + destruct (search_some Re.libname_at dir _ _ Hat) as [v' Hv']. rewrite Hv'.
      exact (proj1 (libname_at_spec _ _ Hv')).
    + intros ->. change ("" ++ ?s) with s. rewrite (search_here _ _ _ Hat). reflexivity.
  - intros path pre post Hex Hout Hpre Hpost.
    assert (Hat : Re.version_at ("version " ++ a ++ "." ++ b ++ "." ++ c ++ post)
                  = Some (a ++ "." ++ b ++ "." ++ c)).
    { unfold Re.version_at. rewrite literal_app.
      rewrite (proj2 (triple_app a b c post Ha Hb Hc) Hpost). reflexivity. }
    unfold lldb_bin in Hex, Hout. unfold get_lldb_version. rewrite Hex, Hout.
    rewrite (search_after Re.version_at "v" pre _); [| | exact Hpre].
    + rewrite (search_here _ _ _ Hat). reflexivity.
    + intros x s Hx. unfold Re.version_at. cbn [Re.literal]. rewrite Hx. reflexivity.
Qed.

End VersionFacts.

(** ** The further properties at concrete runs *)

Lemma table_holds_the_lines_of_the_dump_witness :
  (forall k (a : Z),
      scenario_table !! k = Some a ->
      exists l, In l (Py.splitlines scenario_dump_macos) /\ qualifies l = true /\
                line_key l = k /\ Py.int16 (line_addr l) = Some a) /\
  (forall l, In l (Py.splitlines scenario_dump_macos) -> qualifies l = true ->
             exists a : Z, scenario_table !! line_key l = Some a).
Proof.
  apply (table_holds_the_lines_of_the_dump scenario_dump_macos scenario_table).
  reflexivity.
Defined.

Lemma order_of_lines_is_irrelevant_witness :
  parse_nm_output scenario_dump_macos = parse_nm_output scenario_dump_swapped.
Proof.
  unfold parse_nm_output.
  apply (order_of_lines_is_irrelevant
           (Py.splitlines scenario_dump_macos) (Py.splitlines scenario_dump_swapped)).
  - vm_compute. apply perm_swap.
  - vm_compute. repeat constructor; cbn [In]; intuition discriminate.
Defined.

Lemma dump_without_symbols_is_fatal_witness :
  parse_nm_output no_symbols_dump = Returned ∅ /\
  run (world_with_nm no_symbols_dump) example_argv
  = {| exit_status := 1;
       out := "";
       err := "Reference symbol _ZN4lldb10SBDebugger10InitializeEv not found!" ++ newline;
       uncaught := None |}.
Proof.
  apply (dump_without_symbols_is_fatal INTERNAL_SYMBOLS (world_with_nm no_symbols_dump)
           "dump_offsets.py" example_path []).
  - reflexivity.
  - intros l Hin. vm_compute in Hin.
    destruct Hin as [<- | [<- | [<- | []]]]; vm_compute; lia.
Defined.

Lemma bad_address_ends_the_run_witness :
  run (world_with_nm (scenario_dump_macos ++ arch_header ++ newline)) example_argv
  = {| exit_status := 1; out := ""; err := ""; uncaught := Some ValueError |}.
Proof.
  apply (bad_address_ends_the_run INTERNAL_SYMBOLS
           (world_with_nm (scenario_dump_macos ++ arch_header ++ newline))
           "dump_offsets.py" example_path [] arch_header).
  - reflexivity.
  - vm_compute. right. right. left. reflexivity.
  - vm_compute. lia.
  - reflexivity.
Defined.

Lemma report_lists_every_target_in_order_witness :
  exists o : offsets,
    fst (dump_offsets (world_with_nm scenario_dump_macos) example_path no_output)
    = Returned o /\
    reference_symbol o = REFERENCE_SYMBOL /\
    symbols o
    = map (fun t =>
             (snd t,
              match scenario_table !! fst t with
              | Some a => Some {| mangled := fst t;
                                  offset := Py.hex a;
                                  relative := Py.hex (a - 4096) |}
              | None => None
              end)) INTERNAL_SYMBOLS.
Proof.
  apply (report_lists_every_target_in_order INTERNAL_SYMBOLS
           (world_with_nm scenario_dump_macos) example_path scenario_table 4096).
  - reflexivity.
  - reflexivity.
  - vm_compute. reflexivity.
  - unfold INTERNAL_SYMBOLS. cbn [map snd].
    repeat (apply List.NoDup_cons; [cbn [In]; intuition discriminate |]).
    apply List.NoDup_nil.
Defined.

Lemma last_target_of_a_label_wins_witness :
  exists o : offsets,
    fst (dump_offsets_for twin_targets (world_with_nm scenario_dump_macos) example_path
           no_output) = Returned o /\
    dict_get (symbols o) "GetCategory" = Some (entry_of scenario_table 4096 AddTypeSummary).
Proof.
  apply (last_target_of_a_label_wins [(FormatManager_GetCategory, "GetCategory")] []
           (world_with_nm scenario_dump_macos) example_path scenario_table 4096
           AddTypeSummary "GetCategory").
  - reflexivity.
  - reflexivity.
  - vm_compute. reflexivity.
  - intros [].
Defined.

Lemma offsets_of_a_target_add_up_witness :
  exists (o : offsets) (e : entry) (d : Z),
    fst (dump_offsets_for scenario_targets (world_with_nm reversed_dump) example_path
           no_output) = Returned o /\
    dict_get (symbols o) "TypeCategoryImpl::AddTypeSummary" = Some (Some e) /\
    Py.int16 (reference_offset o) = Some 8192 /\
    Py.int16 (offset e) = Some 4096 /\
    Py.int16 (relative e) = Some d /\
    8192 + d = 4096 /\
    (starts_with_minus (relative e) = true <-> 4096 < 8192).
Proof.
  apply (offsets_of_a_target_add_up [] [] (world_with_nm reversed_dump) example_path
           reversed_table 8192 4096 AddTypeSummary "TypeCategoryImpl::AddTypeSummary").
  - reflexivity.
  - reflexivity.
  - vm_compute. reflexivity.
  - vm_compute. reflexivity.
  - intros [].
Defined.

Lemma version_is_found_not_invented_witness :
  get_lldb_version (world_with_lldb scenario_dump_macos 0 "lldb version 21.1.7")
    "/opt/llvm/lib/liblldb.20.0.1.dylib"
  = "21.1.7".
Proof.
  apply (proj2 (version_is_found_not_invented
                  (world_with_lldb scenario_dump_macos 0 "lldb version 21.1.7")
                  "/opt/llvm/lib/liblldb.20.0.1.dylib") "21.1.7").
  - reflexivity.
  - reflexivity.
Defined.

Lemma lldb_is_sought_beside_the_library_witness :
  lldb_bin ("/opt/llvm/lib" ++ "/" ++ "liblldb.dylib") = "/opt/llvm/lib" ++ "/../bin/lldb" /\
  lldb_bin "liblldb.dylib" = "../bin/lldb".
Proof.
  split.
  - apply (proj1 lldb_is_sought_beside_the_library "/opt/llvm/lib" "liblldb.dylib").
    + discriminate.
    + reflexivity.
    + reflexivity.
  - apply (proj2 lldb_is_sought_beside_the_library "liblldb.dylib"). reflexivity.
Defined.

Lemma version_that_is_there_is_found_witness :
  (is_version_triple
     (get_lldb_version (world_with_nm scenario_dump_macos)
        ("/opt/llvm/lib/" ++ "liblldb." ++ "21" ++ "." ++ "1" ++ "." ++ "7" ++ ".dylib" ++ "")) /\
   get_lldb_version (world_with_nm scenario_dump_macos)
     ("" ++ "liblldb." ++ "21" ++ "." ++ "1" ++ "." ++ "7" ++ ".dylib" ++ "")
   = "21" ++ "." ++ "1" ++ "." ++ "7") /\
  get_lldb_version (world_with_lldb scenario_dump_macos 0 "lldb version 21.1.7") example_path
  = "21" ++ "." ++ "1" ++ "." ++ "7".
Proof.
  split; [split |].
  - apply (proj1 (version_that_is_there_is_found (world_with_nm scenario_dump_macos)
                    "21" "1" "7" eq_refl eq_refl eq_refl) "/opt/llvm/lib/" "").
    reflexivity.
  - apply (proj1 (version_that_is_there_is_found (world_with_nm scenario_dump_macos)
                    "21" "1" "7" eq_refl eq_refl eq_refl) "" "");
      reflexivity.
  - apply (proj2 (version_that_is_there_is_found
                    (world_with_lldb scenario_dump_macos 0 "lldb version 21.1.7")
                    "21" "1" "7" eq_refl eq_refl eq_refl) example_path "lldb " "").
    + reflexivity.
    + reflexivity.
    + reflexivity.
    + reflexivity.
Defined.

Lemma report_or_failure_witness :
  out (run (world_with_nm scenario_dump_macos) example_argv) <> "" /\
  uncaught (run (world_with_nm scenario_dump_macos) example_argv) = None.
Proof.
  split.
  - apply (proj1 (proj1 (proj2 (report_or_failure INTERNAL_SYMBOLS
                                  (world_with_nm scenario_dump_macos) example_argv)))).
    reflexivity.
  - apply (proj2 (proj2 (report_or_failure INTERNAL_SYMBOLS
                           (world_with_nm scenario_dump_macos) example_argv))).
    reflexivity.
Defined.

(** ** From the dump to the report *)

Lemma lookup_last_line (lines : list string) (table table' : gmap string Z)
    (k l : string) (a : Z) :
  parse_lines lines table = Returned table' ->
  is_last_line_for lines k l ->
  Py.int16 (line_addr l) = Some a ->
  table' !! k = Some a.
Proof.
  intros Hrun (Hq & Hk & pre & post & -> & Hpost) Ha.
  rewrite parse_lines_app in Hrun.
  destruct (parse_lines pre table) as [table1 | |]; try discriminate.
  cbn [parse_lines] in Hrun. rewrite (parse_line_long _ _ Hq), Ha, Hk in Hrun.
  rewrite (parse_lines_other_keys _ _ _ _ Hpost Hrun). apply lookup_insert_eq.
Qed.

(** ** The script on a host *)

Section OnAHost.

Implicit Types (table : gmap string Z) (targets : list (string * string))
  (st : streams) (h : Host).

(** [get_lldb_version] raises when [lldb] exists and the call for it
    raises; in every other case it returns what it returns in the world of
    the host, and prints nothing. *)
Lemma full_get_lldb_version_spec h (path : string) st :
  Full.get_lldb_version h path st
  = if path_exists (host_world h) (lldb_bin path) then
      match spawn_raises h [lldb_bin path; "--version"] with
      | Some e => (Raised e, st)
      | None => (Returned (get_lldb_version (host_world h) path), st)
      end
    else (Returned (get_lldb_version (host_world h) path), st).
Proof.
  unfold Full.get_lldb_version, get_lldb_version, lldb_bin, subprocess_run_in. cbv zeta.
  destruct (path_exists (host_world h)
              (OsPath.join (OsPath.dirname path) [".."; "bin"; "lldb"])).
  - destruct (spawn_raises h
                [OsPath.join (OsPath.dirname path) [".."; "bin"; "lldb"]; "--version"]);
      [reflexivity |].
    unfold bind, ret.
    destruct (Re.search Re.version_at _); [reflexivity |].
    destruct (Re.search Re.libname_at path); reflexivity.
  - unfold bind, ret. destruct (Re.search Re.libname_at path); reflexivity.
Qed.

(** [dump_offsets] on a host, case by case. *)
Lemma full_dump_offsets_for_spec targets h (path : string) st :
  Full.dump_offsets_for targets h path st
  = match spawn_raises h ["nm"; path] with
    | Some e => (Raised e, st)
    | None =>
        let result := subprocess_run (host_world h) ["nm"; path] in
        if returncode result =? 0 then
          match parse_nm_output (stdout result) with
          | Returned table =>
              match table !! REFERENCE_SYMBOL with
              | Some r =>
                  match Full.get_lldb_version h path st with
                  | (Returned ver, _) =>
                      (Returned {| version := ver;
                                   reference_symbol := REFERENCE_SYMBOL;
                                   reference_offset := Py.hex r;
                                   symbols := resolve_all table r targets [] |},
                       with_stderr st (warnings table targets))
                  | (Exited c, _) => (Exited c, st)
                  | (Raised e, _) => (Raised e, st)
                  end
              | None =>
                  (Exited 1,
                   with_stderr st
                     ("Reference symbol " ++ REFERENCE_SYMBOL ++ " not found!" ++ newline))
              end
          | Exited c => (Exited c, st)
          | Raised e => (Raised e, st)
          end
        else (Exited 1, with_stderr st ("nm failed: " ++ stderr result ++ newline))
    end.
Proof.
  unfold Full.dump_offsets_for, subprocess_run_in.
  destruct (spawn_raises h ["nm"; path]) as [e |]; [reflexivity |].
  unfold bind at 1. unfold ret at 1. cbv zeta.
  destruct (returncode (subprocess_run (host_world h) ["nm"; path]) =? 0).
  - unfold bind at 1. unfold ret at 1. unfold bind at 1. unfold lift.
    destruct (parse_nm_output (stdout (subprocess_run (host_world h) ["nm"; path])))
      as [table | c | e]; try reflexivity.
    destruct (table !! REFERENCE_SYMBOL) as [r |].
    + unfold bind at 1. rewrite full_get_lldb_version_spec.
      destruct (path_exists (host_world h) (lldb_bin path));
        [destruct (spawn_raises h [lldb_bin path; "--version"]); [reflexivity |] |];
        unfold bind; rewrite for_each_resolve; reflexivity.
    + unfold bind, print_stderr, sys_exit, with_stderr.
      rewrite !append_assoc. reflexivity.
  - unfold bind, print_stderr, sys_exit, with_stderr.
    rewrite !append_assoc. reflexivity.
Qed.

Lemma full_run_for_spec targets h (prog path : string) (more : list string) :
  Full.run_for targets h (prog :: path :: more)
  = match Full.dump_offsets_for targets h path no_output with
    | (Returned o, st) =>
        {| exit_status := 0;
           out := sys_stdout st ++ Json.dumps (offsets_json o) ++ newline;
           err := sys_stderr st;
           uncaught := None |}
    | (Exited c, st) =>
        {| exit_status := c; out := sys_stdout st; err := sys_stderr st; uncaught := None |}
    | (Raised e, st) =>
        {| exit_status := 1; out := sys_stdout st; err := sys_stderr st; uncaught := Some e |}
    end.
Proof.
  unfold Full.run_for, Full.main_for. cbn [length Nat.ltb Nat.leb nth].
  unfold bind at 1. unfold ret at 1. unfold bind at 1. fold no_output.
  destruct (Full.dump_offsets_for targets h path no_output) as [[o | c | e] st]; reflexivity.
Qed.

(** On a host where the two calls return, the script does what it does in
    the world of the host: what is proved of [dump_offsets_for] and
    [run_for] holds of every such run. *)
Lemma full_dump_offsets_for_returns targets h (path : string) st :
  spawn_raises h ["nm"; path] = None ->
  probe_returns h path ->
  Full.dump_offsets_for targets h path st = dump_offsets_for targets (host_world h) path st.
Proof.
  intros Hnm Hprobe. rewrite full_dump_offsets_for_spec, dump_offsets_for_spec, Hnm.
  cbv zeta.
  destruct (returncode (subprocess_run (host_world h) ["nm"; path]) =? 0); [| reflexivity].
  destruct (parse_nm_output (stdout (subprocess_run (host_world h) ["nm"; path])))
    as [table | c | e]; try reflexivity.
  destruct (table !! REFERENCE_SYMBOL) as [r |]; [| reflexivity].
  rewrite full_get_lldb_version_spec. unfold probe_returns in Hprobe.
  destruct (path_exists (host_world h) (lldb_bin path)); [| reflexivity].
  rewrite (Hprobe eq_refl). reflexivity.
Qed.

Lemma full_run_for_returns targets h (prog path : string) (more : list string) :
  spawn_raises h ["nm"; path] = None ->
  probe_returns h path ->
  Full.run_for targets h (prog :: path :: more)
  = run_for targets (host_world h) (prog :: path :: more).
Proof.
  intros Hnm Hprobe.
  rewrite full_run_for_spec, run_for_spec, (full_dump_offsets_for_returns _ _ _ _ Hnm Hprobe).
  reflexivity.
Qed.

(** The report of a run on a host that finds the reference symbol. *)
Lemma full_dump_offsets_for_report targets h (path : string) table (r : Z) st :
  spawn_raises h ["nm"; path] = None ->
  returncode (subprocess_run (host_world h) ["nm"; path]) = 0 ->
  parse_nm_output (stdout (subprocess_run (host_world h) ["nm"; path])) = Returned table ->
  table !! REFERENCE_SYMBOL = Some r ->
  probe_returns h path ->
  Full.dump_offsets_for targets h path st
  = (Returned {| version := get_lldb_version (host_world h) path;
                 reference_symbol := REFERENCE_SYMBOL;
                 reference_offset := Py.hex r;
                 symbols := resolve_all table r targets [] |},
     with_stderr st (warnings table targets)).
Proof.
  intros Hnm Hrc Hparse Href Hprobe.
  rewrite (full_dump_offsets_for_returns _ _ _ _ Hnm Hprobe).
  apply dump_offsets_for_report; assumption.
Qed.

Lemma join_has (sep x : string) (xs : list string) :
  In x xs -> exists pre post : string, Json.join sep xs = pre ++ x ++ post.
Proof.
  induction xs as [| x0 xs IH]; [intros [] |].
  intros [-> | Hin].
  - exists "". destruct xs as [| x1 xs].
    + exists "". cbn [Json.join]. rewrite append_empty_r. reflexivity.
    + eexists. reflexivity.
  - destruct (IH Hin) as (pre & post & Heq).
    destruct xs as [| x1 xs]; [destruct Hin |].
    exists (x0 ++ sep ++ pre), post.
    change (Json.join sep (x0 :: x1 :: xs)) with (x0 ++ sep ++ Json.join sep (x1 :: xs)).
    rewrite Heq, !append_assoc. reflexivity.
Qed.

Lemma dict_get_In {V} (d : list (string * V)) (k : string) (v : V) :
  dict_get d k = Some v -> In (k, v) d.
Proof.
  induction d as [| [k0 v0] d IH]; cbn [dict_get]; [discriminate |].
  destruct (String.eqb_spec k0 k) as [-> | _].
  - intros H. injection H as ->. left. reflexivity.
  - intros H. right. exact (IH H).
Qed.

Lemma dumps_at_object (level : nat) (items : list (string * Json.value)) :
  items <> [] ->
  Json.dumps_at level (Json.Object items)
  = "{" ++ Json.newline_indent (S level)
    ++ Json.join ("," ++ Json.newline_indent (S level))
         (map (fun kv => Json.quote (fst kv) ++ ": " ++ Json.dumps_at (S level) (snd kv)) items)
    ++ Json.newline_indent level ++ "}".
Proof. destruct items; [congruence | reflexivity]. Qed.

(** The text of a report shows [null] under the label of a missing
    symbol. *)
Lemma dumps_has_null (o : offsets) (l : string) :
  In (l, None) (symbols o) ->
  exists pre post : string,
    Json.dumps (offsets_json o) = pre ++ Json.quote l ++ ": null" ++ post.
Proof.
  intros Hin. unfold Json.dumps, offsets_json.
  rewrite dumps_at_object by discriminate.
  set (inner := Json.Object (map (fun kv => (fst kv, entry_json (snd kv))) (symbols o))).
  set (sep1 := "," ++ Json.newline_indent 1).
  set (items1 := map _ _).
  assert (H4 : In (Json.quote "symbols" ++ ": " ++ Json.dumps_at 1 inner) items1).
  { unfold items1. cbn [map fst snd In]. right. right. right. left. reflexivity. }
  destruct (join_has sep1 _ _ H4) as (p1 & q1 & ->).
  unfold inner. rewrite dumps_at_object.
  2:{ destruct (symbols o); [destruct Hin | discriminate]. }
  set (sep2 := "," ++ Json.newline_indent 2).
  set (items2 := map _ (map _ (symbols o))).
  assert (H2 : In (Json.quote l ++ ": " ++ "null") items2).
  { unfold items2.
    apply (in_map (fun kv : string * Json.value =>
                     Json.quote (fst kv) ++ ": " ++ Json.dumps_at 2 (snd kv))
             _ (l, Json.Null)).
    apply (in_map (fun kv : string * option entry => (fst kv, entry_json (snd kv)))
             _ (l, None)).
    exact Hin. }
  destruct (join_has sep2 _ _ H2) as (p2 & q2 & ->).
  exists ("{" ++ Json.newline_indent 1 ++ p1 ++ Json.quote "symbols" ++ ": "
          ++ "{" ++ Json.newline_indent 2 ++ p2),
         (q2 ++ Json.newline_indent 1 ++ "}" ++ q1 ++ Json.newline_indent 0 ++ "}").
  rewrite !append_assoc. reflexivity.
Qed.

End OnAHost.

Section HostClaims.

Implicit Types (table : gmap string Z) (targets : list (string * string))
  (st : streams) (h : Host).

(** C6, as amended.  In a run that reaches the loop over the targets ([nm]
    ran and succeeded, the reference symbol is in the table, and the call
    of [lldb --version], when there is one, returned), a target that the
    table does not have gets the entry [null] under its label and a
    warning with that label on the error stream; the loop goes on, so
    every target has its entry; the process ends with status 0 and prints
    the report, whose text shows [null] under the label. *)
Theorem missing_target_is_null h (prog path : string) (more : list string) table
    (r : Z) (m l : string) :
  spawn_raises h ["nm"; path] = None ->
  returncode (subprocess_run (host_world h) ["nm"; path]) = 0 ->
  parse_nm_output (stdout (subprocess_run (host_world h) ["nm"; path])) = Returned table ->
  table !! REFERENCE_SYMBOL = Some r ->
  probe_returns h path ->
  In (m, l) INTERNAL_SYMBOLS ->
  table !! m = None ->
  exists (o : offsets) (before after pre post : string),
    fst (Full.dump_offsets h path no_output) = Returned o /\
    dict_get (symbols o) l = Some None /\
    (forall m' l', In (m', l') INTERNAL_SYMBOLS ->
                   dict_get (symbols o) l' = Some (entry_of table r m')) /\
    Full.run h (prog :: path :: more)
    = {| exit_status := 0;
         out := Json.dumps (offsets_json o) ++ newline;
         err := before ++ "Warning: " ++ l ++ " not found" ++ newline ++ after;
         uncaught := None |} /\
    Json.dumps (offsets_json o) = pre ++ Json.quote l ++ ": null" ++ post.
Proof.
  intros Hnm Hrc Hparse Href Hprobe Hin Hm.
  destruct (warnings_has_label table INTERNAL_SYMBOLS m l Hin Hm) as (before & after & Hw).
  pose proof (full_dump_offsets_for_report INTERNAL_SYMBOLS h path table r no_output
                Hnm Hrc Hparse Href Hprobe) as Hrun.
  assert (Hnull : dict_get (resolve_all table r INTERNAL_SYMBOLS []) l = Some None).
  { rewrite (resolve_all_lookup table r INTERNAL_SYMBOLS [] m l internal_labels_nodup Hin).
    unfold entry_of. rewrite Hm. reflexivity. }
  set (o := {| version := get_lldb_version (host_world h) path;
               reference_symbol := REFERENCE_SYMBOL;
               reference_offset := Py.hex r;
               symbols := resolve_all table r INTERNAL_SYMBOLS [] |}) in *.
  destruct (dumps_has_null o l (dict_get_In _ _ _ Hnull)) as (pre & post & Htext).
  exists o, before, after, pre, post. unfold Full.dump_offsets, Full.run.
  rewrite full_run_for_spec, Hrun. cbn [fst].
  split; [reflexivity |]. split; [exact Hnull |]. split; [| split; [| exact Htext]].
  - intros m' l' Hin'. apply resolve_all_lookup; [apply internal_labels_nodup | exact Hin'].
  - unfold with_stderr, no_output. cbn [sys_stdout sys_stderr].
    rewrite Hw. unfold warning. rewrite !append_assoc. reflexivity.
Qed.



(** X14. From the text of [nm] to the report.  When [nm] ran and
    succeeded, every qualifying line of its output has an address that
    reads as a numeral, the output names the reference symbol, and the call
    of [lldb --version], when there is one, returned, the report is there;
    its reference offset is [hex] of the address on the last line that
    names the reference symbol, and a target of the list that the output
    names has, under its label, its mangled name, [hex] of the address on
    the last line that names it, and [hex] of the difference of the two
    addresses. *)
Theorem from_the_dump_to_the_report h (path : string) (lr lt m l : string) (r a : Z) :
  spawn_raises h ["nm"; path] = None ->
  returncode (subprocess_run (host_world h) ["nm"; path]) = 0 ->
  (forall x, In x (Py.splitlines (stdout (subprocess_run (host_world h) ["nm"; path]))) ->
             qualifies x = true -> Py.int16 (line_addr x) <> None) ->
  is_last_line_for (Py.splitlines (stdout (subprocess_run (host_world h) ["nm"; path])))
    REFERENCE_SYMBOL lr ->
  Py.int16 (line_addr lr) = Some r ->
  is_last_line_for (Py.splitlines (stdout (subprocess_run (host_world h) ["nm"; path]))) m lt ->
  Py.int16 (line_addr lt) = Some a ->
  probe_returns h path ->
  In (m, l) INTERNAL_SYMBOLS ->
  exists o : offsets,
    fst (Full.dump_offsets h path no_output) = Returned o /\
    reference_offset o = Py.hex r /\
    dict_get (symbols o) l
    = Some (Some {| mangled := m; offset := Py.hex a; relative := Py.hex (a - r) |}).
Proof.
  intros Hnm Hrc Hok Hlr Hr Hlt Ha Hprobe Hin.
  destruct (parse_lines_total _ ∅ Hok) as [table Hparse].
  pose proof (lookup_last_line _ _ _ _ _ _ Hparse Hlr Hr) as Href.
  pose proof (lookup_last_line _ _ _ _ _ _ Hparse Hlt Ha) as Hm.
  eexists. unfold Full.dump_offsets.
  rewrite (full_dump_offsets_for_report INTERNAL_SYMBOLS h path table r no_output
             Hnm Hrc Hparse Href Hprobe).
  cbn [fst]. split; [reflexivity |]. cbn [reference_offset symbols].
  split; [reflexivity |].
  rewrite (resolve_all_lookup table r INTERNAL_SYMBOLS [] m l internal_labels_nodup Hin).
  unfold entry_of. rewrite Hm. reflexivity.
Qed.

(** X15. A call of [subprocess.run] that raises ends the run: status 1,
    nothing on standard output, no line of the script on the error stream.
    This holds for the call of [nm], and for the call of [lldb --version]
    in a run that has found the reference symbol: then no target is looked
    up, no warning is printed and there is no report. *)
Theorem spawn_failure_ends_the_run targets h (prog path : string) (more : list string)
    (e : exn) :
  (spawn_raises h ["nm"; path] = Some e ->
   Full.run_for targets h (prog :: path :: more)
   = {| exit_status := 1; out := ""; err := ""; uncaught := Some e |}) /\
  (forall table (r : Z),
      spawn_raises h ["nm"; path] = None ->
      returncode (subprocess_run (host_world h) ["nm"; path]) = 0 ->
      parse_nm_output (stdout (subprocess_run (host_world h) ["nm"; path])) = Returned table ->
      table !! REFERENCE_SYMBOL = Some r ->
      path_exists (host_world h) (lldb_bin path) = true ->
      spawn_raises h [lldb_bin path; "--version"] = Some e ->
      Full.run_for targets h (prog :: path :: more)
      = {| exit_status := 1; out := ""; err := ""; uncaught := Some e |}).
Proof.
  split.
  - intros Hnm. rewrite full_run_for_spec, full_dump_offsets_for_spec, Hnm. reflexivity.
  - intros table r Hnm Hrc Hparse Href Hex Hlldb.
    rewrite full_run_for_spec, full_dump_offsets_for_spec, Hnm. cbv zeta.
    rewrite Hrc, Hparse, Href, full_get_lldb_version_spec, Hex, Hlldb. reflexivity.
Qed.

End HostClaims.

(** C6, as the specification states it: on a host where [../bin/lldb]
    exists and cannot be executed, [nm] succeeds, the reference symbol is
    in the table and a target is not, and yet the run prints no warning and
    no report and ends with status 1. *)
Lemma missing_target_without_warning :
  returncode (subprocess_run (host_world (host_lldb_unrunnable scenario_dump_macos))
                ["nm"; example_path]) = 0 /\
  parse_nm_output
    (stdout (subprocess_run (host_world (host_lldb_unrunnable scenario_dump_macos))
               ["nm"; example_path])) = Returned scenario_table /\
  scenario_table !! REFERENCE_SYMBOL = Some 4096 /\
  In (FormatManager_GetCategory, "FormatManager::GetCategory") INTERNAL_SYMBOLS /\
  scenario_table !! FormatManager_GetCategory = None /\
  Full.run (host_lldb_unrunnable scenario_dump_macos) example_argv
  = {| exit_status := 1; out := ""; err := ""; uncaught := Some OSError |}.
Proof.
  split; [reflexivity |]. split; [reflexivity |].
  split; [vm_compute; reflexivity |].
  split; [unfold INTERNAL_SYMBOLS; cbn [In]; do 7 right; left; reflexivity |].
  split; [vm_compute; reflexivity |].
  vm_compute. reflexivity.
Qed.


(** ** The theorems on a host at concrete runs *)

Example int16_keeps_separators :
  Py.split (String "028" "10") = ["10"] /\ Py.int16 (String "028" "10") = None /\
  Py.int16 (String "009" "10 ") = Some 16.
Proof. repeat split; reflexivity. Qed.

Example basename_examples :
  OsPath.basename "/opt/llvm/lib/liblldb.dylib" = "liblldb.dylib" /\
  OsPath.basename "liblldb.dylib" = "liblldb.dylib" /\
  OsPath.basename "/opt/llvm/lib/" = "".
Proof. repeat split; reflexivity. Qed.

Lemma missing_target_is_null_witness :
  exists (o : offsets) (before after pre post : string),
    fst (Full.dump_offsets (host_of (world_with_lldb scenario_dump_macos 1 "lldb: bad option"))
           example_path no_output) = Returned o /\
    dict_get (symbols o) "FormatManager::GetCategory" = Some None /\
    (forall m' l', In (m', l') INTERNAL_SYMBOLS ->
                   dict_get (symbols o) l' = Some (entry_of scenario_table 4096 m')) /\
    Full.run (host_of (world_with_lldb scenario_dump_macos 1 "lldb: bad option")) example_argv
    = {| exit_status := 0;
         out := Json.dumps (offsets_json o) ++ newline;
         err := before ++ "Warning: " ++ "FormatManager::GetCategory" ++ " not found"
                ++ newline ++ after;
         uncaught := None |} /\
    Json.dumps (offsets_json o)
    = pre ++ Json.quote "FormatManager::GetCategory" ++ ": null" ++ post.
Proof.
  apply (missing_target_is_null
           (host_of (world_with_lldb scenario_dump_macos 1 "lldb: bad option"))
           "dump_offsets.py" example_path [] scenario_table 4096
           FormatManager_GetCategory "FormatManager::GetCategory").
  - reflexivity.
  - reflexivity.
  - reflexivity.
  - vm_compute. reflexivity.
  - intros _. reflexivity.
  - unfold INTERNAL_SYMBOLS. cbn [In]. do 7 right. left. reflexivity.
  - vm_compute. reflexivity.
Defined.



Lemma from_the_dump_to_the_report_witness :
  exists o : offsets,
    fst (Full.dump_offsets (host_of (world_with_nm reversed_dump)) example_path no_output)
    = Returned o /\
    reference_offset o = Py.hex 8192 /\
    dict_get (symbols o) "TypeCategoryImpl::AddTypeSummary"
    = Some (Some {| mangled := AddTypeSummary;
                    offset := Py.hex 4096;
                    relative := Py.hex (4096 - 8192) |}).
Proof.
  apply (from_the_dump_to_the_report (host_of (world_with_nm reversed_dump)) example_path
           ("2000 T _" ++ REFERENCE_SYMBOL) ("1000 T _" ++ AddTypeSummary)
           AddTypeSummary "TypeCategoryImpl::AddTypeSummary" 8192 4096).
  - reflexivity.
  - reflexivity.
  - intros x Hin _. vm_compute in Hin.
    destruct Hin as [<- | [<- | []]]; vm_compute; discriminate.
  - split; [reflexivity |]. split; [reflexivity |].
    exists [], ["1000 T _" ++ AddTypeSummary]. split; [reflexivity |].
    intros l' [<- | []] _. vm_compute. discriminate.
  - reflexivity.
  - split; [reflexivity |]. split; [reflexivity |].
    exists ["2000 T _" ++ REFERENCE_SYMBOL], []. split; [reflexivity |].
    intros l' [].
  - reflexivity.
  - intros H. vm_compute in H. discriminate H.
  - unfold INTERNAL_SYMBOLS. cbn [In]. right. right. left. reflexivity.
Defined.

Lemma spawn_failure_ends_the_run_witness :
  Full.run host_without_commands example_argv
  = {| exit_status := 1; out := ""; err := ""; uncaught := Some OSError |} /\
  Full.run (host_lldb_unrunnable scenario_dump_macos) example_argv
  = {| exit_status := 1; out := ""; err := ""; uncaught := Some OSError |}.
Proof.
  split.
  { apply (proj1 (spawn_failure_ends_the_run INTERNAL_SYMBOLS host_without_commands
                    "dump_offsets.py" example_path [] OSError)).
    reflexivity. }
  apply (proj2 (spawn_failure_ends_the_run INTERNAL_SYMBOLS
                  (host_lldb_unrunnable scenario_dump_macos)
                  "dump_offsets.py" example_path [] OSError) scenario_table 4096).
  - reflexivity.
  - reflexivity.
  - reflexivity.
  - vm_compute. reflexivity.
  - reflexivity.
  - reflexivity.
Defined.
